(** * Hybrid relevance ranking: a shallow embedding of [search.py]

    The development follows the Python module function by function.
    Scores are Python floats in the source; here they are exact rationals
    ([Q]), so every product, sum and comparison below is the exact one.
    [round(x, 4)] is decimal rounding to four places, ties to even.
    Strings are byte strings (UTF-8), on which Python's [in] is substring
    search; [str.lower] folds the ASCII letters (the keyword tables hold
    ASCII words and caseless CJK words only). *)

From Stdlib Require Import List String Ascii Bool ZArith QArith Qround Qminmax Lia Lqa.
From Stdlib Require Import Permutation Sorted.
Import ListNotations.

Local Open Scope string_scope.
Local Open Scope Z_scope.
Local Open Scope Q_scope.

(** ** Python primitives *)

Module Py.

(** [c.lower()] on one byte. *)
Definition lower_ascii (c : ascii) : ascii :=
  let n := nat_of_ascii c in
  if (65 <=? n)%nat && (n <=? 90)%nat then ascii_of_nat (n + 32) else c.

(** [s.lower()]. *)
Fixpoint lower (s : string) : string :=
  match s with
  | EmptyString => EmptyString
  | String c s' => String (lower_ascii c) (lower s')
  end.

(** [needle in hay] on strings. *)
Fixpoint str_in (needle hay : string) : bool :=
  if String.prefix needle hay then true
  else match hay with
       | EmptyString => false
       | String _ hay' => str_in needle hay'
       end.

(** [x in xs] on a list of strings. *)
Definition mem (x : string) (xs : list string) : bool :=
  existsb (String.eqb x) xs.

(** [sep.join(xs)]. *)
Definition join (sep : string) (xs : list string) : string :=
  String.concat sep xs.

(** [s.strip()]: leading and trailing blanks removed. *)
Definition is_space (c : ascii) : bool :=
  let n := nat_of_ascii c in
  (n =? 32)%nat || ((9 <=? n)%nat && (n <=? 13)%nat).

Fixpoint lstrip (s : string) : string :=
  match s with
  | String c s' => if is_space c then lstrip s' else s
  | EmptyString => EmptyString
  end.

Fixpoint rev_str (s acc : string) : string :=
  match s with
  | EmptyString => acc
  | String c s' => rev_str s' (String c acc)
  end.

Definition strip (s : string) : string :=
  rev_str (lstrip (rev_str (lstrip s) "")) "".

(** Truth value of a string. *)
Definition truthy (s : string) : bool :=
  match s with EmptyString => false | _ => true end.

(** [a or b] on strings. *)
Definition or_else (a b : string) : string := if truthy a then a else b.

(** [d.get(k)] of a possibly absent string, read through [or]. *)
Definition get_or (v : option string) (b : string) : string :=
  match v with Some a => or_else a b | None => b end.

(** [d.get(k, default)]. *)
Definition get_default (v : option string) (d : string) : string :=
  match v with Some a => a | None => d end.

(** Comparisons of floats. *)
Definition ltb (x y : Q) : bool := negb (Qle_bool y x).
Definition geb (x y : Q) : bool := Qle_bool y x.
Definition gtb (x y : Q) : bool := negb (Qle_bool x y).

(** [min(a, b)] and [max(a, b)]: the first argument wins ties. *)
Definition min (a b : Q) : Q := if ltb b a then b else a.
Definition max (a b : Q) : Q := if gtb b a then b else a.

(** [round(x, 4)]: nearest multiple of 1/10000, ties to the even one. *)
Definition round_half_even (x : Q) : Z :=
  let f := Qfloor x in
  let d := x - inject_Z f in
  match Qcompare d (1 # 2) with
  | Lt => f
  | Gt => (f + 1)%Z
  | Eq => if Z.even f then f else (f + 1)%Z
  end.

Definition round4 (x : Q) : Q := inject_Z (round_half_even (x * 10000)) / 10000.

(** [xs[:n]] for any integer [n]. *)
Definition slice_to {A} (xs : list A) (n : Z) : list A :=
  if (0 <=? n)%Z then firstn (Z.to_nat n) xs
  else firstn (Z.to_nat (Z.of_nat (List.length xs) + n)) xs.

End Py.

(** ** Keyword tables *)

(** [CATEGORY_KEYWORDS], in declaration order. *)
Definition CATEGORY_KEYWORDS : list (string * list string) :=
  [ ("音頻設備", ["喇叭"; "音箱"; "音響"; "speaker"; "耳機"; "headphone"; "earbud"; "麥克風"; "mic"; "音頻"]);
    ("家具", ["椅子"; "椅"; "桌子"; "桌"; "沙發"; "床"; "家具"; "furniture"]);
    ("生活家電", ["風扇"; "清淨"; "機器人"; "掃地"; "清潔"; "消毒"; "盒"]);
    ("電腦周邊", ["鍵盤"; "滑鼠"; "鼠標"; "顯示器"; "monitor"; "鍵"; "keyboard"; "mouse"; "周邊"; "護眼"; "螢幕燈"; "螢幕掛燈"; "護眼燈"; "護目"]);
    ("穿戴式裝置", ["手錶"; "手環"; "智能"; "穿戴"; "wearable"; "watch"; "band"]);
    ("家庭娛樂", ["投影"; "投影機"; "cinema"; "螢幕"; "顯示"; "娛樂"]);
    ("儲存設備", ["ssd"; "硬碟"; "存儲"; "儲存"; "storage"; "硬盤"]);
    ("廚房家電", ["咖啡"; "咖啡機"; "coffee"; "廚房"]);
    ("個人護理", ["牙刷"; "吹風機"; "護理"; "美容"]);
    ("手機配件", ["電源"; "行動"; "手機"; "充電"; "配件"]);
    ("網路設備", ["路由器"; "wifi"; "網路"; "router"]);
    ("攝影器材", ["攝影機"; "相機"; "camera"]);
    ("智慧家居", ["門鈴"; "智能"; "智慧"; "smart"; "home"]);
    ("運動器材", ["瑜珈"; "運動"; "sport"]) ].

(** [d.get(k, [])] on a keyword table. *)
Fixpoint table_get (d : list (string * list string)) (k : string) : list string :=
  match d with
  | [] => []
  | (k', v) :: d' => if String.eqb k k' then v else table_get d' k
  end.

(** ** Query analysis *)

(** [infer_target_categories_from_query]: the categories one of whose
    keywords occurs in the lower-cased query.  The source collects them in a
    set and returns [list(set)]; the model lists them in table order. *)
Definition infer_target_categories_from_query (query : string) : list string :=
  let query_lower := Py.lower query in
  map fst
    (filter (fun ck => existsb (fun keyword => Py.str_in (Py.lower keyword) query_lower) (snd ck))
            CATEGORY_KEYWORDS).

(** [calculate_category_weight].  [related_boost] is assigned in the source
    and never read; the model keeps the binding. *)
Definition calculate_category_weight
    (product_category : string) (target_categories : list string)
    (boost_keywords : option (list string)) : Q :=
  match target_categories with
  | [] => 1
  | _ =>
    if Py.mem product_category target_categories then 2
    else
      let related_boost : Q :=
        if Py.str_in "生活家電" product_category || Py.mem "生活家電" target_categories
        then 13 # 10 else 1 in
      if existsb (fun cat => Py.str_in "音頻" cat || Py.str_in "喇叭" cat) target_categories
         && (Py.str_in "音頻" product_category || Py.str_in "喇叭" product_category)
      then 2
      else if Py.mem "家庭娛樂" target_categories && Py.str_in "投影" product_category
      then 3 # 2
      else 7 # 10
  end.

(** ** Data model *)

(** A metadata value that may be a string or a list of strings. *)
Inductive PyText :=
| TStr (s : string)
| TList (l : list string).

(** [doc.metadata]: the keys the ranking code reads; [None] is an absent key. *)
Record Metadata := mkMetadata {
  md_source : option string;
  md_product_id : option string;
  md_product_name : option string;
  md_name : option string;
  md_category : option string;
  md_price : option string;
  md_description : option string;
  md_features : option PyText
}.

Definition empty_metadata : Metadata :=
  mkMetadata None None None None None None None None.

(** A retrieved document; [obj_id] stands for Python's [id(doc)]. *)
Record Document := mkDocument {
  obj_id : nat;
  page_content : string;
  doc_metadata : Metadata
}.

(** A result dictionary.  The single-path ranker fills [content]; the fusion
    ranker fills the two components instead. *)
Record Result := mkResult {
  product_name : string;
  category : string;
  price : string;
  similarity_score : Q;
  content : option string;
  bm25_component : option Q;
  vector_component : option Q;
  metadata : Metadata
}.

(** [result['metadata'].get('product_id', '')]. *)
Definition result_product_id (r : Result) : string :=
  Py.get_default (md_product_id (metadata r)) "".

(** ** Candidate scoring *)

(** The text gathered from ['product_name', 'name', 'description',
    'features'], joined by blanks and lower-cased. *)
Definition text_parts (metadata : Metadata) : list string :=
  let of_str (v : option string) := match v with Some s => [s] | None => [] end in
  of_str (md_product_name metadata) ++ of_str (md_name metadata)
  ++ of_str (md_description metadata)
  ++ match md_features metadata with
     | Some (TList l) => [Py.join " " l]
     | Some (TStr s) => [s]
     | None => []
     end.

Definition searchable_text (metadata : Metadata) : string :=
  Py.lower (Py.join " " (text_parts metadata)).

Definition keyword_in (text : string) (kw : string) : bool :=
  Py.str_in (Py.lower kw) text.

(** [is_product_matching_categories]. *)
Definition is_product_matching_categories
    (metadata : Metadata) (target_categories : list string) : bool :=
  match target_categories with
  | [] => true
  | _ =>
    let prod_cat := Py.strip (Py.get_or (md_category metadata) "") in
    if Py.truthy prod_cat && Py.mem prod_cat target_categories then true
    else
      let content_lower := searchable_text metadata in
      existsb (fun cat => existsb (keyword_in content_lower) (table_get CATEGORY_KEYWORDS cat))
              target_categories
  end.

(** The two counters of [compute_category_match_score], as
    [(total_hits, total_possible)]. *)
Fixpoint category_hits (content : string) (target_categories : list string)
    (acc : nat * nat) : nat * nat :=
  match target_categories with
  | [] => acc
  | cat :: rest =>
    let kw_list := table_get CATEGORY_KEYWORDS cat in
    match kw_list with
    | [] => category_hits content rest acc
    | _ =>
      category_hits content rest
        ((fst acc + List.length (filter (keyword_in content) kw_list))%nat,
         (snd acc + List.length kw_list)%nat)
    end
  end.

(** [compute_category_match_score]. *)
Definition compute_category_match_score
    (metadata : Metadata) (target_categories : list string) : Q :=
  match target_categories with
  | [] => 1
  | _ =>
    let prod_cat := Py.strip (Py.get_or (md_category metadata) "") in
    if Py.truthy prod_cat && Py.mem prod_cat target_categories then 1
    else
      let content := searchable_text metadata in
      let '(total_hits, total_possible) := category_hits content target_categories (0, 0)%nat in
      if (total_possible =? 0)%nat then 1 # 2
      else
        Py.min 1 (inject_Z (Z.of_nat total_hits)
                  / inject_Z (Z.of_nat (Nat.max 1 (Nat.min total_possible 4))))
  end.

(** [ATTRIBUTE_KEYWORDS], local to [compute_attribute_match_score]. *)
Definition ATTRIBUTE_KEYWORDS : list (string * list string) :=
  [ ("防水", ["防水"; "waterproof"]);
    ("降噪", ["降噪"; "noise-canceling"; "anc"]);
    ("快充", ["快充"; "快速充電"; "quick charge"; "fast"]);
    ("續航", ["續航"; "battery"; "長效"; "endurance"]);
    ("護眼", ["護眼"; "護目"; "防藍光"; "blue light"]);
    ("高清", ["4k"; "8k"; "高清"; "高精"; "ultra"]);
    ("輕量", ["輕"; "小"; "compact"; "portable"]);
    ("靜音", ["靜音"; "無聲"; "quiet"; "silent"]) ].

(** The name the attribute and type scorers read:
    [metadata.get('name') or metadata.get('product_name') or ""]. *)
Definition name_of (metadata : Metadata) : string :=
  Py.get_or (md_name metadata) (Py.get_or (md_product_name metadata) "").

Definition product_text (metadata : Metadata) : string :=
  let features_str :=
    match md_features metadata with
    | Some (TList l) => Py.lower (Py.join " " l)
    | Some (TStr s) => Py.lower s
    | None => Py.lower (Py.join " " [])
    end in
  let name := Py.lower (name_of metadata) in
  let description := Py.lower (Py.get_or (md_description metadata) "") in
  Py.lower (name ++ " " ++ description ++ " " ++ features_str).

(** The two counters of [compute_attribute_match_score], as
    [(matched_attrs, total_attrs)]: per attribute, the first keyword found in
    the query is the one looked up in the product text. *)
Fixpoint attribute_counts (table : list (string * list string))
    (query_lower text : string) (acc : nat * nat) : nat * nat :=
  match table with
  | [] => acc
  | (_, attr_keywords) :: rest =>
    match find (keyword_in query_lower) attr_keywords with
    | Some attr_keyword =>
      attribute_counts rest query_lower text
        (if keyword_in text attr_keyword then S (fst acc) else fst acc, S (snd acc))
    | None => attribute_counts rest query_lower text acc
    end
  end.

(** [compute_attribute_match_score]. *)
Definition compute_attribute_match_score (metadata : Metadata) (query : string) : Q :=
  let query_lower := Py.lower query in
  let '(matched_attrs, total_attrs) :=
    attribute_counts ATTRIBUTE_KEYWORDS query_lower (product_text metadata) (0, 0)%nat in
  if (total_attrs =? 0)%nat then 1 # 2
  else inject_Z (Z.of_nat matched_attrs) / inject_Z (Z.of_nat (Nat.max 1 total_attrs)).

(** [PRODUCT_TYPES], local to [compute_product_type_match_score], in
    declaration order. *)
Definition PRODUCT_TYPES : list (string * list string) :=
  [ ("喇叭", ["喇叭"; "speaker"; "音箱"]);
    ("耳機", ["耳機"; "earbuds"; "headphones"; "pods"; "earbud"]);
    ("麥克風", ["麥克風"; "microphone"; "mic"]);
    ("椅子", ["椅子"; "椅"; "chair"]);
    ("鍵盤", ["鍵盤"; "keyboard"]);
    ("滑鼠", ["滑鼠"; "鼠標"; "mouse"]);
    ("顯示器", ["顯示器"; "monitor"; "螢幕"]);
    ("手錶", ["手錶"; "watch"]);
    ("投影", ["投影"; "投影機"; "projector"]) ].

(** First loop of [compute_product_type_match_score]: per type, the first
    keyword found in the query is looked up in the name; a hit returns at
    once, a miss leaves the inner loop and goes on with the next type. *)
Fixpoint type_strong_match (table : list (string * list string))
    (query_lower product_name : string) : bool :=
  match table with
  | [] => false
  | (_, type_keywords) :: rest =>
    match find (keyword_in query_lower) type_keywords with
    | Some type_keyword =>
      if keyword_in product_name type_keyword then true
      else type_strong_match rest query_lower product_name
    | None => type_strong_match rest query_lower product_name
    end
  end.

(** Second loop: does the query name any type at all? *)
Definition type_mentioned (table : list (string * list string)) (query_lower : string) : bool :=
  existsb (fun tk => existsb (keyword_in query_lower) (snd tk)) table.

(** [compute_product_type_match_score]. *)
Definition compute_product_type_match_score (metadata : Metadata) (query : string) : Q :=
  let query_lower := Py.lower query in
  let product_name := Py.lower (name_of metadata) in
  if type_strong_match PRODUCT_TYPES query_lower product_name then 1
  else if type_mentioned PRODUCT_TYPES query_lower then 3 # 10
  else 6 # 10.

(** The type step shared by both rankers. *)
Definition apply_type_score (type_score final_score : Q) : Q :=
  if Py.geb type_score 1 then final_score * (3 # 2)
  else if Py.ltb type_score (1 # 2) then final_score * (1 # 2)
  else final_score.

(** The attribute step shared by both rankers. *)
Definition apply_attr_score (attr_score final_score : Q) : Q :=
  if Py.gtb attr_score (1 # 2) then final_score * (1 + (3 # 10) * attr_score)
  else final_score.

(** The keyword loop of [semantic_search_products]: no [break], so every
    matching keyword multiplies and caps again. *)
Fixpoint boost_loop (boost_keywords : list string) (content_lower : string)
    (final_score : Q) : Q :=
  match boost_keywords with
  | [] => final_score
  | keyword :: rest =>
    boost_loop rest content_lower
      (if keyword_in content_lower keyword
       then Py.min (final_score * (115 # 100)) 1
       else final_score)
  end.

(** ** Exceptions and the external collaborators *)

Inductive exn := ImportError | NameError | BackendError.

Inductive outcome (A : Type) :=
| Returned (a : A)
| Raised (e : exn).
Arguments Returned {A} a.
Arguments Raised {A} e.

Definition bind {A B} (c : outcome A) (k : A -> outcome B) : outcome B :=
  match c with
  | Returned a => k a
  | Raised e => Raised e
  end.

Notation "x <- c ;; k" := (bind c (fun x => k))
  (at level 61, c at next level, right associativity).

(** [try: c except Exception: h]. *)
Definition try_except {A} (c : outcome A) (h : outcome A) : outcome A :=
  match c with
  | Returned a => Returned a
  | Raised _ => h
  end.

(** The vector store: its similarity search and the ['documents'] entry of
    its [get()], either of which may raise. *)
Record Vectorstore := mkVectorstore {
  similarity_search_with_relevance_scores : string -> Z -> outcome (list (Document * Q));
  get : outcome (list string)
}.

Record VectorstoreUpdater := mkUpdater { vectorstore : Vectorstore }.

(** What [hybrid_search_products] hands to the lexical retriever: the raw
    [get()] dictionary or the list of documents of the fallback scan. *)
Inductive AllDocs :=
| DocsDict (documents : list string)
| DocsList (docs : list Document).

Record Retriever := mkRetriever {
  invoke : string -> Z -> outcome (list Document)
}.

Record BM25Retriever := mkBM25 {
  from_documents : AllDocs -> outcome Retriever
}.

(** ** Insertion-ordered dictionaries *)

Section Dict.
Context {K V : Type} (eqb : K -> K -> bool).

Fixpoint dict_get (d : list (K * V)) (k : K) : option V :=
  match d with
  | [] => None
  | (k', v) :: d' => if eqb k k' then Some v else dict_get d' k
  end.

(** [d[k] = v]: an existing key keeps its place. *)
Fixpoint dict_set (d : list (K * V)) (k : K) (v : V) : list (K * V) :=
  match d with
  | [] => [(k, v)]
  | (k', v') :: d' => if eqb k k' then (k', v) :: d' else (k', v') :: dict_set d' k v
  end.
End Dict.

(** ** The single-path ranker *)

Section Semantic.
Variables (query : string) (limit : Z) (score_threshold : Q)
          (product_only : bool) (boost_keywords : option (list string))
          (enable_category_weight : bool).

Definition nonempty {A} (l : list A) : bool :=
  match l with [] => false | _ => true end.

(** The guards of the loop body that [continue]. *)
Definition semantic_keeps (target_categories : list string)
    (doc : Document) (score : Q) : bool :=
  let metadata := doc_metadata doc in
  negb (Py.ltb score score_threshold)
  && negb (product_only
           && negb (String.eqb (Py.get_default (md_source metadata) "") "product_db"))
  && negb (enable_category_weight && nonempty target_categories
           && negb (is_product_matching_categories metadata target_categories))
  && negb (enable_category_weight && nonempty target_categories
           && Py.ltb (compute_category_match_score metadata target_categories) (12 # 100)).

Definition display_name (metadata : Metadata) : string :=
  Py.get_or (md_product_name metadata)
    (Py.get_or (md_name metadata) (Py.get_or (md_product_id metadata) "Unknown")).

(** [final_score] as it stands when the result dictionary is built. *)
Definition semantic_final_score (target_categories : list string)
    (doc : Document) (score : Q) : Q :=
  let metadata := doc_metadata doc in
  let category := Py.get_default (md_category metadata) "" in
  let final_score := score in
  let weighted := enable_category_weight && nonempty target_categories in
  let match_score :=
    if weighted then compute_category_match_score metadata target_categories else 1 in
  let final_score :=
    if weighted
    then final_score * calculate_category_weight category target_categories boost_keywords
    else final_score in
  let final_score :=
    if weighted then final_score * (1 + (45 # 100) * match_score) else final_score in
  let final_score :=
    apply_attr_score (compute_attribute_match_score metadata query) final_score in
  let final_score :=
    apply_type_score (compute_product_type_match_score metadata query) final_score in
  match boost_keywords with
  | Some ((_ :: _) as kws) =>
    boost_loop kws (Py.lower (page_content doc ++ display_name metadata)) final_score
  | _ => final_score
  end.

(** One pass of the loop body: [None] is a [continue]. *)
Definition semantic_candidate (target_categories : list string)
    (ds : Document * Q) : option Result :=
  let '(doc, score) := ds in
  if semantic_keeps target_categories doc score then
    let metadata := doc_metadata doc in
    Some {| product_name := display_name metadata;
            category := Py.get_default (md_category metadata) "";
            price := Py.get_default (md_price metadata) "";
            similarity_score :=
              Py.round4 (Py.min (semantic_final_score target_categories doc score) 1);
            content := Some (page_content doc);
            bm25_component := None;
            vector_component := None;
            metadata := metadata |}
  else None.

(** The loop, with its [break] once [len(output) >= limit]. *)
Fixpoint semantic_loop (target_categories : list string)
    (results : list (Document * Q)) (output : list Result) : list Result :=
  match results with
  | [] => output
  | ds :: rest =>
    match semantic_candidate target_categories ds with
    | None => semantic_loop target_categories rest output
    | Some r =>
      let output := (output ++ [r])%list in
      if (limit <=? Z.of_nat (List.length output))%Z then output
      else semantic_loop target_categories rest output
    end
  end.
End Semantic.

(** [xs.sort(key=similarity_score, reverse=True)]: stable, descending. *)
Fixpoint insert_desc (x : Result) (l : list Result) : list Result :=
  match l with
  | [] => [x]
  | y :: l' =>
    if Py.ltb (similarity_score x) (similarity_score y) then y :: insert_desc x l'
    else x :: l
  end.

Fixpoint sort_desc (l : list Result) : list Result :=
  match l with
  | [] => []
  | x :: l' => insert_desc x (sort_desc l')
  end.

(** The deduplication loop of [semantic_search_products]. *)
Fixpoint dedup (seen_product_ids : list string) (output : list Result) : list Result :=
  match output with
  | [] => []
  | result :: rest =>
    let product_id := result_product_id result in
    if Py.truthy product_id && negb (Py.mem product_id seen_product_ids)
    then result :: dedup (product_id :: seen_product_ids) rest
    else if negb (Py.truthy product_id) then result :: dedup seen_product_ids rest
    else dedup seen_product_ids rest
  end.

(** The body of the [try] of [semantic_search_products]. *)
Definition semantic_try (vectorstore_updater : VectorstoreUpdater)
    (query : string) (limit : Z) (score_threshold : Q) (product_only : bool)
    (boost_keywords : option (list string)) (enable_category_weight : bool)
    : outcome (list Result) :=
  let vectorstore := vectorstore vectorstore_updater in
  let target_categories :=
    if enable_category_weight then infer_target_categories_from_query query else [] in
  let search_limit := if product_only then (limit * 3)%Z else limit in
  results <- similarity_search_with_relevance_scores vectorstore query search_limit ;;
  let output :=
    semantic_loop query limit score_threshold product_only boost_keywords
                  enable_category_weight target_categories results [] in
  let output := sort_desc output in
  Returned (Py.slice_to (dedup [] output) limit).

(** [semantic_search_products]. *)
Definition semantic_search_products (vectorstore_updater : option VectorstoreUpdater)
    (query : string) (limit : Z) (score_threshold : Q) (product_only : bool)
    (boost_keywords : option (list string)) (enable_category_weight : bool)
    : outcome (list Result) :=
  match vectorstore_updater with
  | None => Returned []
  | Some vu =>
    try_except
      (semantic_try vu query limit score_threshold product_only boost_keywords
                    enable_category_weight)
      (Returned [])
  end.

(** ** The fusion ranker *)

(** An entry of [merged_results]. *)
Record Entry := mkEntry {
  e_product_name : string;
  e_category : string;
  e_price : string;
  bm25_score : Q;
  vector_score : Q;
  e_metadata : Metadata
}.

Definition set_bm25_score (e : Entry) (s : Q) : Entry :=
  mkEntry (e_product_name e) (e_category e) (e_price e) s (vector_score e) (e_metadata e).

Definition set_vector_score (e : Entry) (s : Q) : Entry :=
  mkEntry (e_product_name e) (e_category e) (e_price e) (bm25_score e) s (e_metadata e).

(** Equality of documents as [doc not in all_docs] tests it: the same object,
    or equal content and metadata. *)
Definition opt_eqb {A} (eqb : A -> A -> bool) (x y : option A) : bool :=
  match x, y with
  | Some a, Some b => eqb a b
  | None, None => true
  | _, _ => false
  end.

Fixpoint strings_eqb (l1 l2 : list string) : bool :=
  match l1, l2 with
  | [], [] => true
  | a :: l1', b :: l2' => String.eqb a b && strings_eqb l1' l2'
  | _, _ => false
  end.

Definition text_eqb (x y : PyText) : bool :=
  match x, y with
  | TStr a, TStr b => String.eqb a b
  | TList a, TList b => strings_eqb a b
  | _, _ => false
  end.

Definition metadata_eqb (m1 m2 : Metadata) : bool :=
  opt_eqb String.eqb (md_source m1) (md_source m2)
  && opt_eqb String.eqb (md_product_id m1) (md_product_id m2)
  && opt_eqb String.eqb (md_product_name m1) (md_product_name m2)
  && opt_eqb String.eqb (md_name m1) (md_name m2)
  && opt_eqb String.eqb (md_category m1) (md_category m2)
  && opt_eqb String.eqb (md_price m1) (md_price m2)
  && opt_eqb String.eqb (md_description m1) (md_description m2)
  && opt_eqb text_eqb (md_features m1) (md_features m2).

Definition doc_eqb (d1 d2 : Document) : bool :=
  Nat.eqb (obj_id d1) (obj_id d2)
  || (String.eqb (page_content d1) (page_content d2)
      && metadata_eqb (doc_metadata d1) (doc_metadata d2)).

(** The fallback scan: documents of an empty-query search, each kept once. *)
Fixpoint scan_docs (results : list (Document * Q)) (all_docs : list Document)
    : list Document :=
  match results with
  | [] => all_docs
  | (doc, _) :: rest =>
    if existsb (doc_eqb doc) all_docs then scan_docs rest all_docs
    else scan_docs rest (all_docs ++ [doc])
  end.

(** The inner [try] that gathers [all_docs]; any exception leaves [[]]. *)
Definition gather_all_docs (vectorstore : Vectorstore) : AllDocs :=
  match get vectorstore with
  | Raised _ => DocsList []
  | Returned ((_ :: _) as documents) => DocsDict documents
  | Returned [] =>
    match similarity_search_with_relevance_scores vectorstore "" 1000%Z with
    | Raised _ => DocsList []
    | Returned results => DocsList (scan_docs results [])
    end
  end.

Definition all_docs_truthy (all_docs : AllDocs) : bool :=
  match all_docs with
  | DocsDict _ => true
  | DocsList l => nonempty l
  end.

(** [bm25_scores]: rank scores keyed by [id(doc)]. *)
Fixpoint rank_scores (n : nat) (i : nat) (raw : list Document)
    (bm25_scores : list (nat * Q)) : list (nat * Q) :=
  match raw with
  | [] => bm25_scores
  | doc :: rest =>
    rank_scores n (S i) rest
      (dict_set Nat.eqb bm25_scores (obj_id doc)
         (1 - inject_Z (Z.of_nat i) / inject_Z (Z.of_nat (n + 1))))
  end.

Definition bm25_scores_of (bm25_results_raw : list Document) : list (nat * Q) :=
  rank_scores (List.length bm25_results_raw) 0 bm25_results_raw [].

Definition bm25_lookup (bm25_scores : list (nat * Q)) (doc : Document) : Q :=
  match dict_get Nat.eqb bm25_scores (obj_id doc) with
  | Some s => s
  | None => 0
  end.

(** Does the lexical loop take this document? *)
Definition bm25_takes (product_only : bool) (doc : Document) : bool :=
  let metadata := doc_metadata doc in
  negb (product_only && negb (opt_eqb String.eqb (md_source metadata) (Some "product_db")))
  && Py.truthy (Py.get_default (md_product_id metadata) "").

(** The loop that adds the lexical results to [merged_results]. *)
Fixpoint merge_bm25 (product_only : bool) (bm25_scores : list (nat * Q))
    (docs : list Document) (merged_results : list (string * Entry))
    : list (string * Entry) :=
  match docs with
  | [] => merged_results
  | doc :: rest =>
    if bm25_takes product_only doc then
      let metadata := doc_metadata doc in
      let product_id := Py.get_default (md_product_id metadata) "" in
      let doc_score := bm25_lookup bm25_scores doc in
      merge_bm25 product_only bm25_scores rest
        (match dict_get String.eqb merged_results product_id with
         | None =>
           dict_set String.eqb merged_results product_id
             {| e_product_name := Py.get_default (md_product_name metadata) "";
                e_category := Py.get_default (md_category metadata) "";
                e_price := Py.get_default (md_price metadata) "";
                bm25_score := doc_score;
                vector_score := 0;
                e_metadata := metadata |}
         | Some e =>
           dict_set String.eqb merged_results product_id
             (set_bm25_score e (Py.max (bm25_score e) doc_score))
         end)
    else merge_bm25 product_only bm25_scores rest merged_results
  end.

(** The loop that adds the vector results to [merged_results]. *)
Fixpoint merge_vector (vector_results : list Result)
    (merged_results : list (string * Entry)) : list (string * Entry) :=
  match vector_results with
  | [] => merged_results
  | result :: rest =>
    let product_id := result_product_id result in
    if Py.truthy product_id then
      let result_score := similarity_score result in
      merge_vector rest
        (match dict_get String.eqb merged_results product_id with
         | None =>
           dict_set String.eqb merged_results product_id
             {| e_product_name := product_name result;
                e_category := category result;
                e_price := price result;
                bm25_score := 0;
                vector_score := result_score;
                e_metadata := metadata result |}
         | Some e =>
           dict_set String.eqb merged_results product_id
             (set_vector_score e (Py.max (vector_score e) result_score))
         end)
    else merge_vector rest merged_results
  end.

Section Fusion.
Variables (query : string) (score_threshold : Q)
          (bm25_weight vector_weight : Q) (target_categories : list string).

(** The weighted sum of the two stored components. *)
Definition fused_score (data : Entry) : Q :=
  bm25_score data * bm25_weight + vector_score data * vector_weight.

(** The guards of the scoring loop that [continue]. *)
Definition hybrid_keeps (data : Entry) : bool :=
  match target_categories with
  | [] => true
  | _ =>
    is_product_matching_categories (e_metadata data) target_categories
    && negb (Py.ltb (compute_category_match_score (e_metadata data) target_categories)
                    (12 # 100))
  end.

(** [final_score] as it stands at the threshold test. *)
Definition hybrid_final_score (data : Entry) : Q :=
  let final_score := fused_score data in
  let final_score :=
    match target_categories with
    | [] => final_score
    | _ =>
      final_score
      * (1 + (45 # 100) * compute_category_match_score (e_metadata data) target_categories)
    end in
  let final_score :=
    apply_attr_score (compute_attribute_match_score (e_metadata data) query) final_score in
  apply_type_score (compute_product_type_match_score (e_metadata data) query) final_score.

Definition hybrid_result (data : Entry) : Result :=
  {| product_name := e_product_name data;
     category := e_category data;
     price := e_price data;
     similarity_score := Py.round4 (hybrid_final_score data);
     content := None;
     bm25_component := Some (Py.round4 (bm25_score data));
     vector_component := Some (Py.round4 (vector_score data));
     metadata := e_metadata data |}.

(** The scoring loop over [merged_results.items()]. *)
Fixpoint score_merged (merged_results : list (string * Entry)) : list Result :=
  match merged_results with
  | [] => []
  | (_, data) :: rest =>
    if hybrid_keeps data && Py.geb (hybrid_final_score data) score_threshold
    then hybrid_result data :: score_merged rest
    else score_merged rest
  end.
End Fusion.

(** The body of the [try] of [hybrid_search_products].  [bm25_results_raw] is
    bound only when [all_docs] is true; reading it unbound raises. *)
Definition hybrid_try (langchain_community : option BM25Retriever)
    (vectorstore_updater : VectorstoreUpdater)
    (query : string) (limit : Z) (score_threshold : Q) (product_only : bool)
    (bm25_weight vector_weight : Q) (enable_category_weight : bool)
    : outcome (list Result) :=
  match langchain_community with
  | None => Raised ImportError
  | Some BM25 =>
    let vectorstore := vectorstore vectorstore_updater in
    let all_docs := gather_all_docs vectorstore in
    bm25_results_raw <-
      (if all_docs_truthy all_docs then
         bm25_retriever <- from_documents BM25 all_docs ;;
         raw <- invoke bm25_retriever query (limit * 3)%Z ;;
         Returned (Some raw)
       else Returned None) ;;
    let bm25_scores :=
      match bm25_results_raw with
      | Some raw => bm25_scores_of raw
      | None => []
      end in
    let target_categories :=
      if enable_category_weight then infer_target_categories_from_query query else [] in
    vector_results <-
      semantic_search_products (Some vectorstore_updater) query (limit * 3)%Z
        score_threshold product_only None enable_category_weight ;;
    match bm25_results_raw with
    | None => Raised NameError
    | Some raw =>
      let merged_results :=
        merge_bm25 product_only bm25_scores (Py.slice_to raw (limit * 2)%Z) [] in
      let merged_results :=
        merge_vector (Py.slice_to vector_results (limit * 2)%Z) merged_results in
      let final_results :=
        score_merged query score_threshold bm25_weight vector_weight target_categories
                     merged_results in
      Returned (Py.slice_to (sort_desc final_results) limit)
    end
  end.

(** [hybrid_search_products]: both handlers fall back to the single-path
    ranker. *)
Definition hybrid_search_products (langchain_community : option BM25Retriever)
    (vectorstore_updater : option VectorstoreUpdater)
    (query : string) (limit : Z) (score_threshold : Q) (product_only : bool)
    (bm25_weight vector_weight : Q) (enable_category_weight : bool)
    : outcome (list Result) :=
  match vectorstore_updater with
  | None => Returned []
  | Some vu =>
    try_except
      (hybrid_try langchain_community vu query limit score_threshold product_only
                  bm25_weight vector_weight enable_category_weight)
      (semantic_search_products (Some vu) query limit score_threshold product_only
                                None enable_category_weight)
  end.


(** ** Conditions and closed forms used in the statements *)

(** The conditions of the category-weight table, as the source tests them. *)
Definition literal_match (product_category : string) (target_categories : list string) : bool :=
  Py.mem product_category target_categories.

Definition audio_related (product_category : string) (target_categories : list string) : bool :=
  existsb (fun cat => Py.str_in "音頻" cat || Py.str_in "喇叭" cat) target_categories
  && (Py.str_in "音頻" product_category || Py.str_in "喇叭" product_category).

Definition projector_affinity (product_category : string) (target_categories : list string) : bool :=
  Py.mem "家庭娛樂" target_categories && Py.str_in "投影" product_category.

(** The test the source makes before it assigns [related_boost]. *)
Definition home_appliance_involved (product_category : string) (target_categories : list string) : bool :=
  Py.str_in "生活家電" product_category || Py.mem "生活家電" target_categories.

(** The keywords the source compares with the name: per type, the first
    keyword found in the query. *)
Fixpoint mentioned_keywords (table : list (string * list string)) (query_lower : string)
    : list string :=
  match table with
  | [] => []
  | (_, type_keywords) :: rest =>
    match find (keyword_in query_lower) type_keywords with
    | Some kw => kw :: mentioned_keywords rest query_lower
    | None => mentioned_keywords rest query_lower
    end
  end.

(** The multiplier the source applies for the product type. *)
Definition type_multiplier (metadata : Metadata) (query : string) : Q :=
  let mentioned := mentioned_keywords PRODUCT_TYPES (Py.lower query) in
  if existsb (keyword_in (Py.lower (name_of metadata))) mentioned then 3 # 2
  else if nonempty mentioned then 1 # 2
  else 1.

(** [base ** k] for the keyword boost. *)
Fixpoint qpow (base : Q) (k : nat) : Q :=
  match k with
  | O => 1
  | S k' => base * qpow base k'
  end.

(** The number of boost keywords (with repetitions) found in the content. *)
Definition matching_keywords (boost_keywords : list string) (content_lower : string) : nat :=
  List.length (filter (keyword_in content_lower) boost_keywords).

(** One turn of the keyword loop on a matching keyword. *)
Definition boost_once (final_score : Q) : Q := Py.min (final_score * (115 # 100)) 1.

(** The closed form of [k] turns. *)
Definition boost_closed_form (k : nat) (score : Q) : Q :=
  match k with
  | O => score
  | S _ => Qmin (score * qpow (115 # 100) k) 1
  end.

(** ** The specification's wording, for comparison with the source *)

(** Item and some target both under the home-appliance umbrella. *)
Definition home_appliance_umbrella (product_category : string) (target_categories : list string) : bool :=
  Py.str_in "生活家電" product_category && existsb (Py.str_in "生活家電") target_categories.

(** The category weight of the specification (section 4.3, step 1). *)
Definition spec_category_weight (product_category : string) (target_categories : list string) : Q :=
  if literal_match product_category target_categories
     || home_appliance_umbrella product_category target_categories
     || audio_related product_category target_categories
  then 2
  else if projector_affinity product_category target_categories then 3 # 2
  else 7 # 10.

(** [extractTypeMention] of the specification: the first type, in table
    order, one of whose keywords occurs in the query. *)
Definition extractTypeMention (query : string) : option (string * list string) :=
  find (fun tk => existsb (keyword_in (Py.lower query)) (snd tk)) PRODUCT_TYPES.

(** The type multiplier of the specification (section 4.3, step 3). *)
Definition spec_type_multiplier (metadata : Metadata) (query : string) : Q :=
  match extractTypeMention query with
  | Some (_, type_keywords) =>
    if existsb (keyword_in (Py.lower (name_of metadata))) type_keywords then 3 # 2 else 1 # 2
  | None => 1
  end.

(** The keyword boost of the specification (section 4.3, step 4): one
    multiplication, capped at 1. *)
Definition spec_keyword_boost (boost_keywords : list string) (content_lower : string)
    (score : Q) : Q :=
  if existsb (keyword_in content_lower) boost_keywords
  then Qmin (score * (115 # 100)) 1
  else score.

(** [CandidateScorer] of the specification (section 4.3, steps 1 to 3; the
    fusion ranker takes no boost keywords): category weight and category-match
    boost when there are target categories, then the attribute boost, then
    the product-type adjustment, each applied once to the running score.  The
    steps themselves are the source's functions. *)
Definition CandidateScorer (query : string) (targetCategories : list string)
    (metadata : Metadata) (baseScore : Q) : Q :=
  let score := baseScore in
  let score :=
    match targetCategories with
    | [] => score
    | _ =>
      score
      * calculate_category_weight (Py.get_default (md_category metadata) "")
          targetCategories None
      * (1 + (45 # 100) * compute_category_match_score metadata targetCategories)
    end in
  let score := apply_attr_score (compute_attribute_match_score metadata query) score in
  apply_type_score (compute_product_type_match_score metadata query) score.

(** The final clamp of the specification (section 4.3, step 5). *)
Definition finalScore (score : Q) : Q := Qmin (Qmax score 0) 1.

(** ** Sample catalogue entries and stores *)

Module Sample.

Definition item (pid name cat : string) (features : option PyText) : Metadata :=
  {| md_source := Some "product_db";
     md_product_id := if Py.truthy pid then Some pid else None;
     md_product_name := Some name;
     md_name := Some name;
     md_category := Some cat;
     md_price := Some "100";
     md_description := None;
     md_features := features |}.

Definition doc (n : nat) (text : string) (m : Metadata) : Document :=
  {| obj_id := n; page_content := text; doc_metadata := m |}.

(** A store whose [get()] lists no documents, whose similarity search
    answers [catalogue] to the empty query of the fallback scan and [answer]
    to every other query. *)
Definition store_with (catalogue answer : list (Document * Q)) : VectorstoreUpdater :=
  mkUpdater
    (mkVectorstore
       (fun query _ => Returned (if String.eqb query "" then catalogue else answer))
       (Returned [])).

Definition store (results : list (Document * Q)) : VectorstoreUpdater :=
  store_with results results.

(** A lexical retriever that answers [raw] to every query. *)
Definition lexical (raw : list Document) : BM25Retriever :=
  mkBM25 (fun _ => Returned (mkRetriever (fun _ _ => Returned raw))).

(** A store that always raises. *)
Definition broken_store : VectorstoreUpdater :=
  mkUpdater (mkVectorstore (fun _ _ => Raised BackendError) (Raised BackendError)).

Definition speaker : Metadata :=
  item "p1" "X-100 speaker" "音頻設備" (Some (TStr "waterproof, 30h battery")).
Definition earbuds : Metadata := item "p2" "pro earbuds" "音頻設備" None.
Definition desk : Metadata := item "p3" "oak desk" "家具" None.
Definition stand : Metadata := item "p4" "speaker stand" "家具" None.

Definition lamp : Metadata := item "p5" "reading lamp" "家具" None.

(** Five documents of five different products. *)
Definition shelf : list Document :=
  [doc 1 "speaker" speaker; doc 2 "earbuds" earbuds; doc 3 "desk" desk;
   doc 4 "stand" stand; doc 5 "lamp" lamp].

Definition names_of (out : outcome (list Result)) : list string :=
  match out with
  | Returned l => map product_name l
  | Raised _ => []
  end.


Definition list_of (out : outcome (list Result)) : list Result :=
  match out with
  | Returned l => l
  | Raised _ => []
  end.

(** A vector hit, as the single-path ranker reports it. *)
Definition hit (m : Metadata) (score : Q) : Result :=
  {| product_name := Py.get_default (md_product_name m) "";
     category := Py.get_default (md_category m) "";
     price := Py.get_default (md_price m) "";
     similarity_score := score;
     content := Some "";
     bm25_component := None;
     vector_component := None;
     metadata := m |}.

(** A result of the fusion path. *)
Definition fused (m : Metadata) (score lexical vector : Q) : Result :=
  {| product_name := Py.get_default (md_product_name m) "";
     category := Py.get_default (md_category m) "";
     price := Py.get_default (md_price m) "";
     similarity_score := score;
     content := None;
     bm25_component := Some lexical;
     vector_component := Some vector;
     metadata := m |}.

Definition scores_of (out : outcome (list Result)) : list Q :=
  match out with
  | Returned l => map similarity_score l
  | Raised _ => []
  end.

End Sample.

(** The order of a list sorted by descending score. *)
Definition score_ge (r1 r2 : Result) : Prop := similarity_score r2 <= similarity_score r1.

(** ** The two retrieval paths seen from one item *)

Definition doc_product_id (doc : Document) : string :=
  Py.get_default (md_product_id (doc_metadata doc)) "".

(** The lexical hits and the vector hits that the merge loops file under
    [product_id]. *)
Definition lexical_hit (product_only : bool) (product_id : string) (doc : Document) : bool :=
  bm25_takes product_only doc && String.eqb (doc_product_id doc) product_id.

Definition vector_hit (product_id : string) (result : Result) : bool :=
  Py.truthy (result_product_id result) && String.eqb (result_product_id result) product_id.

(** The scores each path reports for [product_id], in loop order. *)
Definition lexical_observed (product_only : bool) (bm25_scores : list (nat * Q))
    (docs : list Document) (product_id : string) : list Q :=
  map (bm25_lookup bm25_scores) (filter (lexical_hit product_only product_id) docs).

Definition vector_observed (vector_results : list Result) (product_id : string) : list Q :=
  map similarity_score (filter (vector_hit product_id) vector_results).

(** [s] is the path score for the observations: 0 when the path did not
    report the item, else the greatest score it reported. *)
Definition path_max (observed : list Q) (s : Q) : Prop :=
  match observed with
  | [] => s == 0
  | _ => (exists x, In x observed /\ x == s) /\ (forall x, In x observed -> x <= s)
  end.

(** What one lexical hit, and one vector hit, does to the entry of its item. *)
Definition bm25_step (bm25_scores : list (nat * Q)) (o : option Entry) (doc : Document)
    : option Entry :=
  let metadata := doc_metadata doc in
  Some match o with
       | None =>
         {| e_product_name := Py.get_default (md_product_name metadata) "";
            e_category := Py.get_default (md_category metadata) "";
            e_price := Py.get_default (md_price metadata) "";
            bm25_score := bm25_lookup bm25_scores doc;
            vector_score := 0;
            e_metadata := metadata |}
       | Some e => set_bm25_score e (Py.max (bm25_score e) (bm25_lookup bm25_scores doc))
       end.

Definition vector_step (o : option Entry) (result : Result) : option Entry :=
  Some match o with
       | None =>
         {| e_product_name := product_name result;
            e_category := category result;
            e_price := price result;
            bm25_score := 0;
            vector_score := similarity_score result;
            e_metadata := metadata result |}
       | Some e => set_vector_score e (Py.max (vector_score e) (similarity_score result))
       end.


(** Every entry of the merged union sits under its own product id, which is
    not empty. *)
Definition keyed (merged : list (string * Entry)) : Prop :=
  forall k e,
    In (k, e) merged ->
    Py.get_default (md_product_id (e_metadata e)) "" = k /\ Py.truthy k = true.

(** The factors of the fusion ranker's pipeline. *)
Definition category_match_factor (target_categories : list string) (metadata : Metadata) : Q :=
  match target_categories with
  | [] => 1
  | _ => 1 + (45 # 100) * compute_category_match_score metadata target_categories
  end.

Definition attribute_factor (query : string) (metadata : Metadata) : Q :=
  let attr_score := compute_attribute_match_score metadata query in
  if Py.gtb attr_score (1 # 2) then 1 + (3 # 10) * attr_score else 1.

(** ** The remaining helpers of the module *)

(** [list(set(xs))]: the distinct elements of [xs].  Python fixes no order
    for them; the model lists each at its last occurrence. *)
Definition list_of_set (xs : list string) : list string := nodup string_dec xs.

(** [extract_category_keywords_from_query]. *)
Definition extract_category_keywords_from_query (query : string) : list string :=
  let query_lower := Py.lower query in
  list_of_set
    (flat_map
       (fun ck => filter (fun keyword => Py.str_in (Py.lower keyword) query_lower) (snd ck))
       CATEGORY_KEYWORDS).

(** What [combine_documents_content] may find in its list: an object with a
    [page_content] attribute (possibly [None]), a dictionary with optional
    ['page_content'] and ['content'] keys, or anything else. *)
Inductive DocLike :=
| LikeDocument (text : option string)
| LikeDict (text content : option string)
| LikeOther.

(** [a or b] on optional strings. *)
Definition opt_or (a b : option string) : option string :=
  match a with
  | Some s => if Py.truthy s then a else b
  | None => b
  end.

(** The text one element contributes: a list of at most one string. *)
Definition doc_text (d : DocLike) : list string :=
  let text :=
    match d with
    | LikeDocument t => t
    | LikeDict t c => opt_or t c
    | LikeOther => None
    end in
  match text with
  | Some s => if Py.truthy s then [s] else []
  | None => []
  end.

(** The separator of [combine_documents_content]: a line of three dashes. *)
Definition doc_separator : string :=
  String (ascii_of_nat 10) "---" ++ String (ascii_of_nat 10) "".

(** [combine_documents_content]. *)
Definition combine_documents_content (docs : list DocLike) : string :=
  match docs with
  | [] => ""
  | _ => Py.join doc_separator (flat_map doc_text docs)
  end.

(** Does a result carry exactly the score [s]? *)
Definition same_score (s : Q) (r : Result) : bool := Qeq_bool (similarity_score r) s.

(** * Theorems *)

(** ** Arithmetic of the Python primitives *)

Lemma ltb_lt x y : Py.ltb x y = true <-> x < y.
Proof.
  unfold Py.ltb. rewrite negb_true_iff.
  destruct (Qle_bool y x) eqn:E.
  - apply Qle_bool_iff in E. split; [discriminate | intros H; exfalso; lra].
  - split; [intros _ | reflexivity].
    apply Qnot_le_lt. intros H. apply Qle_bool_iff in H. congruence.
Qed.

Lemma ltb_ge x y : Py.ltb x y = false <-> y <= x.
Proof.
  unfold Py.ltb. rewrite negb_false_iff. apply Qle_bool_iff.
Qed.

Lemma gtb_gt x y : Py.gtb x y = true <-> y < x.
Proof. apply ltb_lt. Qed.

Lemma gtb_le x y : Py.gtb x y = false <-> x <= y.
Proof. apply ltb_ge. Qed.

Lemma geb_ge x y : Py.geb x y = true <-> y <= x.
Proof. apply Qle_bool_iff. Qed.

Lemma py_min_le_r a b : Py.min a b <= b.
Proof.
  unfold Py.min. destruct (Py.ltb b a) eqn:E.
  - lra.
  - apply ltb_ge in E. exact E.
Qed.

Lemma py_min_le_l a b : Py.min a b <= a.
Proof.
  unfold Py.min. destruct (Py.ltb b a) eqn:E.
  - apply ltb_lt in E. lra.
  - lra.
Qed.

Lemma py_min_glb a b c : c <= a -> c <= b -> c <= Py.min a b.
Proof. intros Ha Hb. unfold Py.min. destruct (Py.ltb b a); assumption. Qed.

Lemma py_min_Qmin a b : Py.min a b == Qmin a b.
Proof.
  unfold Py.min. destruct (Py.ltb b a) eqn:E.
  - apply ltb_lt in E. rewrite Q.min_r; [reflexivity | lra].
  - apply ltb_ge in E. rewrite Q.min_l; [reflexivity | lra].
Qed.

Lemma py_max_ge_l a b : a <= Py.max a b.
Proof.
  unfold Py.max. destruct (Py.gtb b a) eqn:E.
  - apply gtb_gt in E. lra.
  - lra.
Qed.

Lemma py_max_ge_r a b : b <= Py.max a b.
Proof.
  unfold Py.max. destruct (Py.gtb b a) eqn:E.
  - lra.
  - apply gtb_le in E. exact E.
Qed.

Lemma py_max_cases a b : Py.max a b = a \/ Py.max a b = b.
Proof. unfold Py.max. destruct (Py.gtb b a); auto. Qed.

(** ** The category weight *)

Lemma ccw_cases (product_category : string) (target_categories : list string)
    (boost_keywords : option (list string)) :
  target_categories <> [] ->
  calculate_category_weight product_category target_categories boost_keywords
  = if literal_match product_category target_categories then 2
    else if audio_related product_category target_categories then 2
    else if projector_affinity product_category target_categories then 3 # 2
    else 7 # 10.
Proof.
  intros Hne. unfold calculate_category_weight, literal_match, audio_related,
    projector_affinity.
  destruct target_categories as [| t ts]; [congruence |].
  reflexivity.
Qed.

(** C5, as amended: against a non-empty list of target categories the weight
    is 2 when the item's category is literally a target, else 2 when a target
    and the item's category both name audio equipment, else 3/2 for the
    projector / home-entertainment pair, else 7/10; the last case is stated
    for items and targets that do not involve the home-appliance category. *)
Theorem category_weight_table (product_category : string)
    (target_categories : list string) (boost_keywords : option (list string)) :
  target_categories <> [] ->
  literal_match product_category target_categories
  || audio_related product_category target_categories
  || projector_affinity product_category target_categories
  || negb (home_appliance_involved product_category target_categories) = true ->
  calculate_category_weight product_category target_categories boost_keywords
  == if literal_match product_category target_categories then 2
     else if audio_related product_category target_categories then 2
     else if projector_affinity product_category target_categories then 3 # 2
     else 7 # 10.
Proof.
  intros Hne _. rewrite ccw_cases by assumption. reflexivity.
Qed.

Lemma category_weight_table_witness :
  calculate_category_weight "投影設備" ["家庭娛樂"; "家具"] None == 3 # 2.
Proof.
  apply (category_weight_table "投影設備" ["家庭娛樂"; "家具"] None).
  - discriminate.
  - reflexivity.
Defined.

(** C5, counterexample: an item of category "小型生活家電" scored against the
    target "生活家電" is under the home-appliance umbrella with the target,
    yet its weight is 7/10 and not the 2 of the specification. *)
Lemma category_weight_umbrella_counterexample :
  home_appliance_umbrella "小型生活家電" ["生活家電"] = true
  /\ calculate_category_weight "小型生活家電" ["生活家電"] None == 7 # 10
  /\ ~ calculate_category_weight "小型生活家電" ["生活家電"] None
       == spec_category_weight "小型生活家電" ["生活家電"].
Proof.
  split; [reflexivity |]. split; [reflexivity |].
  vm_compute. discriminate.
Qed.

(** ** The product-type step *)

Lemma find_existsb {A} (f : A -> bool) (l : list A) :
  existsb f l = match find f l with Some _ => true | None => false end.
Proof.
  induction l as [| a l IH]; simpl; [reflexivity |].
  destruct (f a); simpl; auto.
Qed.

Lemma type_strong_match_mentioned table query_lower name :
  type_strong_match table query_lower name
  = existsb (keyword_in name) (mentioned_keywords table query_lower).
Proof.
  induction table as [| [ty kws] rest IH]; simpl; [reflexivity |].
  destruct (find (keyword_in query_lower) kws) as [kw |]; simpl.
  - destruct (keyword_in name kw); simpl; auto.
  - exact IH.
Qed.

Lemma type_mentioned_nonempty table query_lower :
  type_mentioned table query_lower = nonempty (mentioned_keywords table query_lower).
Proof.
  unfold type_mentioned.
  induction table as [| [ty kws] rest IH]; simpl; [reflexivity |].
  rewrite find_existsb.
  destruct (find (keyword_in query_lower) kws) as [kw |]; simpl; auto.
Qed.

Lemma type_step_multiplier (metadata : Metadata) (query : string) (final_score : Q) :
  apply_type_score (compute_product_type_match_score metadata query) final_score
  == final_score * type_multiplier metadata query.
Proof.
  unfold compute_product_type_match_score, type_multiplier.
  rewrite type_strong_match_mentioned, type_mentioned_nonempty.
  destruct (existsb _ (mentioned_keywords _ _)).
  - unfold apply_type_score. simpl. reflexivity.
  - destruct (nonempty _); unfold apply_type_score; simpl; ring.
Qed.

(** C6, as amended: every product type the query mentions is recognised, each
    through the first of its keywords found in the query; the score is
    multiplied by 3/2 when the item's name contains one of these keywords, by
    1/2 when the query mentions a type and the name contains none of them,
    and is left alone when the query mentions no type. *)
Theorem type_adjustment_all_mentions (metadata : Metadata) (query : string)
    (final_score : Q) :
  let mentioned := mentioned_keywords PRODUCT_TYPES (Py.lower query) in
  let name := Py.lower (name_of metadata) in
  apply_type_score (compute_product_type_match_score metadata query) final_score
  == final_score
     * (if existsb (keyword_in name) mentioned then 3 # 2
        else if nonempty mentioned then 1 # 2
        else 1).
Proof.
  intros mentioned name. apply type_step_multiplier.
Qed.

(** C6, counterexample: the query "speaker earbuds" mentions the speaker type
    first; the item "pro earbuds" does not contain its keyword, yet the score
    is multiplied by 3/2 (not by 1/2) through the later earbuds type. *)
Lemma type_first_match_counterexample :
  apply_type_score (compute_product_type_match_score Sample.earbuds "speaker earbuds") 1
  == 3 # 2
  /\ spec_type_multiplier Sample.earbuds "speaker earbuds" == 1 # 2
  /\ ~ apply_type_score (compute_product_type_match_score Sample.earbuds "speaker earbuds") 1
       == 1 * spec_type_multiplier Sample.earbuds "speaker earbuds".
Proof.
  split; [vm_compute; reflexivity |]. split; [vm_compute; reflexivity |].
  vm_compute. discriminate.
Qed.

(** ** The keyword boost *)

Lemma qpow_ge_1 (k : nat) : 1 <= qpow (115 # 100) k.
Proof.
  induction k as [| k IH]; simpl; [lra |].
  nra.
Qed.

Lemma boost_loop_iter (boost_keywords : list string) (content_lower : string) :
  forall final_score,
    boost_loop boost_keywords content_lower final_score
    = Nat.iter (matching_keywords boost_keywords content_lower) boost_once final_score.
Proof.
  unfold matching_keywords.
  induction boost_keywords as [| kw rest IH]; intros s; simpl; [reflexivity |].
  destruct (keyword_in content_lower kw); simpl.
  - rewrite IH. fold (boost_once s). symmetry.
    exact (Nat.iter_succ_r (List.length (filter (keyword_in content_lower) rest))
             Q boost_once s).
  - apply IH.
Qed.

Lemma boost_once_closed (x : Q) : boost_once x == Qmin (x * (115 # 100)) 1.
Proof. apply py_min_Qmin. Qed.

Lemma boost_iter_closed (k : nat) :
  forall s, Nat.iter (S k) boost_once s == Qmin (s * qpow (115 # 100) (S k)) 1.
Proof.
  induction k as [| k IH]; intros s.
  - simpl. rewrite boost_once_closed.
    destruct (Qlt_le_dec 1 (s * (115 # 100))) as [H | H].
    + rewrite !Q.min_r by lra. reflexivity.
    + rewrite !Q.min_l by lra. ring.
  - rewrite Nat.iter_succ_r, IH.
    pose proof (qpow_ge_1 (S k)) as Hp.
    change (qpow (115 # 100) (S (S k))) with ((115 # 100) * qpow (115 # 100) (S k)).
    unfold boost_once, Py.min.
    destruct (Py.ltb 1 (s * (115 # 100))) eqn:E.
    + apply ltb_lt in E.
      rewrite !Q.min_r; [reflexivity | nra | lra].
    + apply ltb_ge in E.
      destruct (Qlt_le_dec 1 (s * (115 # 100) * qpow (115 # 100) (S k))) as [H | H].
      * rewrite !Q.min_r by lra. reflexivity.
      * rewrite !Q.min_l by lra. ring.
Qed.

(** C7, as amended: the running score is multiplied by 1.15 and capped at 1
    once for every boost keyword found in the item's content or name, so [k]
    matching keywords give [min(score * 1.15^k, 1)]; when at least one keyword
    matches, the result of the step does not exceed 1. *)
Theorem keyword_boost_compounds (boost_keywords : list string)
    (content_lower : string) (final_score : Q) :
  boost_loop boost_keywords content_lower final_score
  == boost_closed_form (matching_keywords boost_keywords content_lower) final_score
  /\ ((0 < matching_keywords boost_keywords content_lower)%nat ->
      boost_loop boost_keywords content_lower final_score <= 1).
Proof.
  rewrite boost_loop_iter.
  destruct (matching_keywords boost_keywords content_lower) as [| k].
  - split; [reflexivity | intros H; inversion H].
  - split.
    + unfold boost_closed_form. apply boost_iter_closed.
    + intros _. rewrite boost_iter_closed. apply Q.le_min_r.
Qed.

Lemma keyword_boost_compounds_witness :
  boost_loop ["alpha"; "beta"] "alpha beta" (4 # 10) <= 1.
Proof.
  apply (keyword_boost_compounds ["alpha"; "beta"] "alpha beta" (4 # 10)).
  vm_compute. lia.
Defined.

(** C7, counterexample: with the two boost keywords "alpha" and "beta" both
    in the content, a score of 0.4 leaves the step as 0.529 (two
    multiplications), not as the 0.46 of a single one; the single-path ranker
    reports 0.529. *)
Lemma keyword_boost_once_counterexample :
  boost_loop ["alpha"; "beta"] "alpha beta" (4 # 10) == 529 # 1000
  /\ spec_keyword_boost ["alpha"; "beta"] "alpha beta" (4 # 10) == 46 # 100
  /\ ~ boost_loop ["alpha"; "beta"] "alpha beta" (4 # 10)
       == spec_keyword_boost ["alpha"; "beta"] "alpha beta" (4 # 10)
  /\ Sample.scores_of
       (semantic_search_products
          (Some (Sample.store [(Sample.doc 1 "alpha beta" Sample.desk, 4 # 10)]))
          "xyz" 10 (2 # 10) true (Some ["alpha"; "beta"]) true)
     = [5290 # 10000].
Proof.
  split; [vm_compute; reflexivity |]. split; [vm_compute; reflexivity |].
  split; [vm_compute; discriminate |].
  vm_compute. reflexivity.
Qed.

(** ** Lists: slices, the stable sort, the deduplication *)

Lemma take_In {A} (n : nat) (xs : list A) (x : A) : In x (firstn n xs) -> In x xs.
Proof.
  revert n. induction xs as [| y xs IH]; intros [| n]; simpl; try tauto.
  intros [-> | H]; [auto | right; eapply IH; exact H].
Qed.


Lemma slice_to_incl {A} (xs : list A) (n : Z) (x : A) :
  In x (Py.slice_to xs n) -> In x xs.
Proof.
  unfold Py.slice_to. destruct (0 <=? n)%Z; apply take_In.
Qed.

Lemma slice_to_length {A} (xs : list A) (n : Z) :
  (0 <= n)%Z -> (Z.of_nat (List.length (Py.slice_to xs n)) <= n)%Z.
Proof.
  intros Hn. unfold Py.slice_to.
  destruct (0 <=? n)%Z eqn:E; [| apply Z.leb_gt in E; lia].
  pose proof (firstn_le_length (Z.to_nat n) xs). lia.
Qed.

Lemma slice_to_negative_short {A} (xs : list A) (n : Z) :
  (n < 0)%Z -> (List.length xs <= 1)%nat -> Py.slice_to xs n = [].
Proof.
  intros Hn Hlen. unfold Py.slice_to.
  destruct (0 <=? n)%Z eqn:E; [apply Z.leb_le in E; lia |].
  replace (Z.to_nat (Z.of_nat (List.length xs) + n)) with 0%nat by lia.
  reflexivity.
Qed.



Lemma insert_desc_perm (x : Result) (l : list Result) :
  Permutation (insert_desc x l) (x :: l).
Proof.
  induction l as [| y l IH]; simpl; [reflexivity |].
  destruct (Py.ltb (similarity_score x) (similarity_score y)).
  - rewrite IH. apply perm_swap.
  - reflexivity.
Qed.

Lemma sort_desc_perm (l : list Result) : Permutation (sort_desc l) l.
Proof.
  induction l as [| x l IH]; simpl; [reflexivity |].
  rewrite insert_desc_perm. constructor. exact IH.
Qed.

Lemma sort_desc_In (l : list Result) (r : Result) : In r (sort_desc l) <-> In r l.
Proof.
  split; apply Permutation_in; [| symmetry]; apply sort_desc_perm.
Qed.

Lemma sort_desc_length (l : list Result) : List.length (sort_desc l) = List.length l.
Proof. apply Permutation_length, sort_desc_perm. Qed.

Lemma insert_desc_sorted (x : Result) (l : list Result) :
  StronglySorted score_ge l -> StronglySorted score_ge (insert_desc x l).
Proof.
  induction 1 as [| y l Hs IH Hall]; simpl.
  - constructor; constructor.
  - destruct (Py.ltb (similarity_score x) (similarity_score y)) eqn:E.
    + constructor; [exact IH |].
      apply ltb_lt in E.
      rewrite Forall_forall in *. intros z Hz.
      apply (Permutation_in _ (insert_desc_perm x l)) in Hz.
      destruct Hz as [<- | Hz]; [unfold score_ge; lra | auto].
    + apply ltb_ge in E.
      constructor; [constructor; assumption |].
      constructor; [exact E |].
      rewrite Forall_forall in *. intros z Hz.
      specialize (Hall z Hz). unfold score_ge in *. lra.
Qed.

Lemma sort_desc_sorted (l : list Result) : StronglySorted score_ge (sort_desc l).
Proof.
  induction l as [| x l IH]; simpl; [constructor |].
  apply insert_desc_sorted, IH.
Qed.

Lemma dedup_In (seen : list string) (l : list Result) (r : Result) :
  In r (dedup seen l) -> In r l.
Proof.
  revert seen. induction l as [| x l IH]; intros seen; simpl; [tauto |].
  destruct (Py.truthy (result_product_id x) && negb (Py.mem (result_product_id x) seen)).
  - intros [-> | H]; [auto | right; eapply IH; exact H].
  - destruct (negb (Py.truthy (result_product_id x))).
    + intros [-> | H]; [auto | right; eapply IH; exact H].
    + intros H. right. eapply IH; exact H.
Qed.

Lemma dedup_length (seen : list string) (l : list Result) :
  (List.length (dedup seen l) <= List.length l)%nat.
Proof.
  revert seen. induction l as [| x l IH]; intros seen; simpl; [lia |].
  destruct (Py.truthy (result_product_id x) && negb (Py.mem (result_product_id x) seen)).
  - simpl. specialize (IH (result_product_id x :: seen)). lia.
  - destruct (negb (Py.truthy (result_product_id x))); simpl; specialize (IH seen); lia.
Qed.

(** ** The shape of what the entry points return *)

Lemma semantic_try_returned vu query limit t po bk ecw l :
  semantic_try vu query limit t po bk ecw = Returned l ->
  exists results,
    similarity_search_with_relevance_scores (vectorstore vu) query
      (if po then (limit * 3)%Z else limit) = Returned results
    /\ l = Py.slice_to
             (dedup []
                (sort_desc
                   (semantic_loop query limit t po bk ecw
                      (if ecw then infer_target_categories_from_query query else [])
                      results [])))
             limit.
Proof.
  unfold semantic_try, bind.
  destruct (similarity_search_with_relevance_scores _ _ _) as [results | e];
    [| discriminate].
  intros H. injection H as <-. exists results. split; reflexivity.
Qed.

Lemma semantic_returns vu query limit t po bk ecw :
  exists l, semantic_search_products vu query limit t po bk ecw = Returned l
            /\ (l = []
                \/ exists u, vu = Some u
                             /\ semantic_try u query limit t po bk ecw = Returned l).
Proof.
  unfold semantic_search_products, try_except.
  destruct vu as [u |]; [| exists []; auto].
  destruct (semantic_try u query limit t po bk ecw) as [l | e] eqn:E.
  - exists l. split; [reflexivity |]. right. exists u. auto.
  - exists []. auto.
Qed.

Lemma hybrid_try_returned lc vu query limit t po bw vw ecw l :
  hybrid_try lc vu query limit t po bw vw ecw = Returned l ->
  exists raw vector_results,
    semantic_search_products (Some vu) query (limit * 3)%Z t po None ecw
    = Returned vector_results
    /\ l = Py.slice_to
             (sort_desc
                (score_merged query t bw vw
                   (if ecw then infer_target_categories_from_query query else [])
                   (merge_vector (Py.slice_to vector_results (limit * 2)%Z)
                      (merge_bm25 po (bm25_scores_of raw)
                         (Py.slice_to raw (limit * 2)%Z) []))))
             limit.
Proof.
  unfold hybrid_try, bind.
  destruct lc as [BM25 |]; [| discriminate].
  destruct (all_docs_truthy _).
  - destruct (from_documents BM25 _) as [retr | e]; [| discriminate].
    destruct (invoke retr query (limit * 3)%Z) as [raw | e]; [| discriminate].
    destruct (semantic_search_products _ _ _ _ _ _ _) as [vres | e]; [| discriminate].
    intros H. injection H as <-. exists raw, vres. split; reflexivity.
  - destruct (semantic_search_products _ _ _ _ _ _ _); discriminate.
Qed.

Lemma hybrid_returns lc vu query limit t po bw vw ecw :
  exists l, hybrid_search_products lc vu query limit t po bw vw ecw = Returned l
            /\ (l = []
                \/ (exists u, vu = Some u
                              /\ hybrid_try lc u query limit t po bw vw ecw = Returned l)
                \/ semantic_search_products vu query limit t po None ecw = Returned l).
Proof.
  unfold hybrid_search_products, try_except.
  destruct vu as [u |]; [| exists []; auto].
  destruct (hybrid_try lc u query limit t po bw vw ecw) as [l | e] eqn:E.
  - exists l. split; [reflexivity |]. right. left. exists u. auto.
  - destruct (semantic_returns (Some u) query limit t po None ecw) as (l & Hl & _).
    exists l. split; [exact Hl |]. right. right. exact Hl.
Qed.

(** The two handlers of [hybrid_search_products]: whatever the [try] raises,
    the answer is the single-path ranker's. *)
Lemma hybrid_fallback lc u query limit t po bw vw ecw e :
  hybrid_try lc u query limit t po bw vw ecw = Raised e ->
  hybrid_search_products lc (Some u) query limit t po bw vw ecw
  = semantic_search_products (Some u) query limit t po None ecw.
Proof.
  intros H. unfold hybrid_search_products, try_except. rewrite H. reflexivity.
Qed.

Lemma hybrid_without_lexical_docs u query limit t po bw vw ecw BM25 :
  all_docs_truthy (gather_all_docs (vectorstore u)) = false ->
  hybrid_search_products (Some BM25) (Some u) query limit t po bw vw ecw
  = semantic_search_products (Some u) query limit t po None ecw.
Proof.
  intros H.
  destruct (semantic_returns (Some u) query (limit * 3)%Z t po None ecw) as (l & Hl & _).
  apply (hybrid_fallback _ _ _ _ _ _ _ _ _ NameError).
  unfold hybrid_try, bind. rewrite H, Hl. reflexivity.
Qed.

Example broken_store_gives_nothing :
  semantic_search_products (Some Sample.broken_store) "speaker" 10 (2 # 10) true None true
  = Returned []
  /\ hybrid_search_products (Some (Sample.lexical Sample.shelf)) (Some Sample.broken_store)
       "speaker" 10 (2 # 10) true (4 # 10) (6 # 10) true
     = Returned [].
Proof. split; reflexivity. Qed.

(** ** The length of the returned list *)

(** C10: with a limit that is not negative both entry points return a list,
    of length at most the limit, on the fallback paths as well. *)
Theorem result_length_bounded (langchain_community : option BM25Retriever)
    (vectorstore_updater : option VectorstoreUpdater) (query : string) (limit : Z)
    (score_threshold : Q) (product_only : bool) (boost_keywords : option (list string))
    (bm25_weight vector_weight : Q) (enable_category_weight : bool) :
  (0 <= limit)%Z ->
  (exists l,
      semantic_search_products vectorstore_updater query limit score_threshold
        product_only boost_keywords enable_category_weight = Returned l
      /\ (Z.of_nat (List.length l) <= limit)%Z)
  /\ (exists l,
         hybrid_search_products langchain_community vectorstore_updater query limit
           score_threshold product_only bm25_weight vector_weight
           enable_category_weight = Returned l
         /\ (Z.of_nat (List.length l) <= limit)%Z).
Proof.
  intros Hlimit.
  assert (Hsem : forall bk,
             exists l,
               semantic_search_products vectorstore_updater query limit score_threshold
                 product_only bk enable_category_weight = Returned l
               /\ (Z.of_nat (List.length l) <= limit)%Z).
  { intros bk.
    destruct (semantic_returns vectorstore_updater query limit score_threshold
                product_only bk enable_category_weight) as (l & Hl & Hshape).
    exists l. split; [exact Hl |].
    destruct Hshape as [-> | (u & _ & Htry)]; [simpl; lia |].
    apply semantic_try_returned in Htry. destruct Htry as (results & _ & ->).
    apply slice_to_length, Hlimit. }
  split; [apply Hsem |].
  destruct (hybrid_returns langchain_community vectorstore_updater query limit
              score_threshold product_only bm25_weight vector_weight
              enable_category_weight) as (l & Hl & Hshape).
  exists l. split; [exact Hl |].
  destruct Hshape as [-> | [(u & _ & Htry) | Hfallback]].
  - simpl. lia.
  - apply hybrid_try_returned in Htry. destruct Htry as (raw & vres & _ & ->).
    apply slice_to_length, Hlimit.
  - destruct (Hsem None) as (l' & Hl' & Hlen). congruence.
Qed.

Lemma result_length_bounded_witness :
  (exists l,
      semantic_search_products
        (Some (Sample.store [(Sample.doc 1 "speaker" Sample.speaker, 85 # 100);
                             (Sample.doc 2 "earbuds" Sample.earbuds, 80 # 100)]))
        "speaker" 1 (2 # 10) true None true = Returned l
      /\ (Z.of_nat (List.length l) <= 1)%Z)
  /\ (exists l,
         hybrid_search_products
           (Some (Sample.lexical [Sample.doc 1 "speaker" Sample.speaker;
                                  Sample.doc 2 "earbuds" Sample.earbuds]))
           (Some (Sample.store [(Sample.doc 1 "speaker" Sample.speaker, 85 # 100);
                                (Sample.doc 2 "earbuds" Sample.earbuds, 80 # 100)]))
           "speaker" 1 (2 # 10) true (4 # 10) (6 # 10) true = Returned l
         /\ (Z.of_nat (List.length l) <= 1)%Z).
Proof.
  apply (result_length_bounded
           (Some (Sample.lexical [Sample.doc 1 "speaker" Sample.speaker;
                                  Sample.doc 2 "earbuds" Sample.earbuds]))
           (Some (Sample.store [(Sample.doc 1 "speaker" Sample.speaker, 85 # 100);
                                (Sample.doc 2 "earbuds" Sample.earbuds, 80 # 100)]))
           "speaker" 1 (2 # 10) true None (4 # 10) (6 # 10) true).
  lia.
Defined.

(** ** Exceptions never reach the caller *)

Lemma semantic_loop_length query limit t po bk ecw targets results :
  forall output,
    (limit <= Z.of_nat (List.length output) + 1)%Z ->
    (List.length (semantic_loop query limit t po bk ecw targets results output)
     <= List.length output + 1)%nat.
Proof.
  induction results as [| ds rest IH]; intros output Hlimit; simpl; [lia |].
  destruct (semantic_candidate query t po bk ecw targets ds) as [r |].
  - destruct (limit <=? Z.of_nat (List.length (output ++ [r])))%Z eqn:E.
    + rewrite length_app. simpl. lia.
    + apply Z.leb_gt in E. rewrite length_app in E. simpl in E. lia.
  - apply IH, Hlimit.
Qed.

Lemma semantic_negative_limit vu query limit t po bk ecw :
  (limit < 0)%Z ->
  semantic_search_products vu query limit t po bk ecw = Returned [].
Proof.
  intros Hneg.
  destruct (semantic_returns vu query limit t po bk ecw) as (l & Hl & Hshape).
  rewrite Hl. f_equal.
  destruct Hshape as [-> | (u & _ & Htry)]; [reflexivity |].
  apply semantic_try_returned in Htry. destruct Htry as (results & _ & ->).
  apply slice_to_negative_short; [exact Hneg |].
  etransitivity; [apply dedup_length |].
  rewrite sort_desc_length.
  etransitivity; [apply semantic_loop_length; simpl; lia |].
  simpl. lia.
Qed.

(** C9, as amended: no ranking call raises to its caller, whatever the limit:
    both entry points always return a list, and the single-path ranker
    returns the empty list for every negative limit. *)
Theorem ranking_never_raises (langchain_community : option BM25Retriever)
    (vectorstore_updater : option VectorstoreUpdater) (query : string) (limit : Z)
    (score_threshold : Q) (product_only : bool) (boost_keywords : option (list string))
    (bm25_weight vector_weight : Q) (enable_category_weight : bool) :
  (exists l,
      semantic_search_products vectorstore_updater query limit score_threshold
        product_only boost_keywords enable_category_weight = Returned l)
  /\ (exists l,
         hybrid_search_products langchain_community vectorstore_updater query limit
           score_threshold product_only bm25_weight vector_weight
           enable_category_weight = Returned l)
  /\ ((limit < 0)%Z ->
      semantic_search_products vectorstore_updater query limit score_threshold
        product_only boost_keywords enable_category_weight = Returned []).
Proof.
  split; [| split].
  - destruct (semantic_returns vectorstore_updater query limit score_threshold
                product_only boost_keywords enable_category_weight) as (l & Hl & _).
    exists l. exact Hl.
  - destruct (hybrid_returns langchain_community vectorstore_updater query limit
                score_threshold product_only bm25_weight vector_weight
                enable_category_weight) as (l & Hl & _).
    exists l. exact Hl.
  - apply semantic_negative_limit.
Qed.

Lemma ranking_never_raises_witness :
  semantic_search_products
    (Some (Sample.store [(Sample.doc 1 "speaker" Sample.speaker, 85 # 100)]))
    "speaker" (-2) (2 # 10) true None true = Returned [].
Proof.
  apply (ranking_never_raises None
           (Some (Sample.store [(Sample.doc 1 "speaker" Sample.speaker, 85 # 100)]))
           "speaker" (-2) (2 # 10) true None (4 # 10) (6 # 10) true).
  lia.
Defined.

(** C9, counterexample: called with the limit -1, the single-path ranker
    returns the empty list and the fusion ranker returns a shortened list of
    two of the five lexical hits; neither call raises. *)
Lemma negative_limit_counterexample :
  semantic_search_products
    (Some (Sample.store [(Sample.doc 1 "speaker" Sample.speaker, 85 # 100)]))
    "speaker" (-1) (2 # 10) true None true = Returned []
  /\ Sample.names_of
       (hybrid_search_products (Some (Sample.lexical Sample.shelf))
          (Some (Sample.store [(Sample.doc 1 "speaker" Sample.speaker, 85 # 100)]))
          "xyz" (-1) (2 # 10) true (4 # 10) (6 # 10) true)
     = ["X-100 speaker"; "pro earbuds"]
  /\ ~ (exists e,
           hybrid_search_products (Some (Sample.lexical Sample.shelf))
             (Some (Sample.store [(Sample.doc 1 "speaker" Sample.speaker, 85 # 100)]))
             "xyz" (-1) (2 # 10) true (4 # 10) (6 # 10) true = Raised e).
Proof.
  split; [vm_compute; reflexivity |]. split; [vm_compute; reflexivity |].
  intros [e H]. vm_compute in H. discriminate.
Qed.

(** ** Dictionaries *)

Section DictFacts.
Context {K V : Type} (eqb : K -> K -> bool).
Hypothesis eqb_spec : forall x y, eqb x y = true <-> x = y.

Lemma eqb_refl_true k : eqb k k = true.
Proof. apply eqb_spec. reflexivity. Qed.

Lemma dict_get_set (d : list (K * V)) k v k' :
  dict_get eqb (dict_set eqb d k v) k'
  = if eqb k' k then Some v else dict_get eqb d k'.
Proof.
  induction d as [| [k0 v0] d IH]; simpl; [reflexivity |].
  destruct (eqb k k0) eqn:E; simpl.
  - apply eqb_spec in E. subst k0. destruct (eqb k' k); reflexivity.
  - rewrite IH. destruct (eqb k' k0) eqn:E0; [| reflexivity].
    destruct (eqb k' k) eqn:E1; [| reflexivity].
    apply eqb_spec in E0, E1. subst. rewrite eqb_refl_true in E. discriminate.
Qed.

Lemma dict_get_In (d : list (K * V)) k v : dict_get eqb d k = Some v -> In (k, v) d.
Proof.
  induction d as [| [k0 v0] d IH]; simpl; [discriminate |].
  destruct (eqb k k0) eqn:E.
  - apply eqb_spec in E. subst. intros H. injection H as ->. auto.
  - auto.
Qed.

Lemma dict_get_None (d : list (K * V)) k :
  dict_get eqb d k = None -> ~ In k (map fst d).
Proof.
  induction d as [| [k0 v0] d IH]; simpl; [tauto |].
  destruct (eqb k k0) eqn:E; [discriminate |].
  intros H [-> | Hin]; [rewrite eqb_refl_true in E; discriminate | exact (IH H Hin)].
Qed.

Lemma In_dict_get (d : list (K * V)) k v :
  NoDup (map fst d) -> In (k, v) d -> dict_get eqb d k = Some v.
Proof.
  induction d as [| [k0 v0] d IH]; simpl; [tauto |].
  intros Hnd. inversion Hnd as [| ? ? Hnotin Hnd']; subst.
  intros [H | H].
  - injection H as -> ->. rewrite eqb_refl_true. reflexivity.
  - destruct (eqb k k0) eqn:E; [| auto].
    apply eqb_spec in E. subst. exfalso. apply Hnotin.
    apply (in_map fst) in H. exact H.
Qed.

Lemma dict_set_keys_old (d : list (K * V)) k v v0 :
  dict_get eqb d k = Some v0 -> map fst (dict_set eqb d k v) = map fst d.
Proof.
  induction d as [| [k0 v1] d IH]; simpl; [discriminate |].
  destruct (eqb k k0) eqn:E; simpl; [reflexivity |].
  intros H. f_equal. auto.
Qed.

Lemma dict_set_keys_new (d : list (K * V)) k v :
  dict_get eqb d k = None -> map fst (dict_set eqb d k v) = (map fst d ++ [k])%list.
Proof.
  induction d as [| [k0 v1] d IH]; simpl; [reflexivity |].
  destruct (eqb k k0) eqn:E; simpl; [discriminate |].
  intros H. f_equal. auto.
Qed.

Lemma dict_set_NoDup (d : list (K * V)) k v :
  NoDup (map fst d) -> NoDup (map fst (dict_set eqb d k v)).
Proof.
  intros Hnd. destruct (dict_get eqb d k) as [v0 |] eqn:E.
  - rewrite (dict_set_keys_old _ _ _ _ E). exact Hnd.
  - rewrite (dict_set_keys_new _ _ _ E).
    apply NoDup_rev in Hnd. rewrite <- (rev_involutive (_ ++ _)).
    apply NoDup_rev. rewrite rev_app_distr. simpl. constructor; [| exact Hnd].
    rewrite <- in_rev. apply dict_get_None, E.
Qed.

Lemma dict_set_In (d : list (K * V)) k v k' v' :
  In (k', v') (dict_set eqb d k v) -> (k' = k /\ v' = v) \/ In (k', v') d.
Proof.
  induction d as [| [k0 v0] d IH]; simpl.
  - intros [H | []]. injection H as <- <-. auto.
  - destruct (eqb k k0) eqn:E; simpl.
    + apply eqb_spec in E. subst k0.
      intros [H | H]; [injection H as <- <-; auto | auto].
    + intros [H | H]; [auto |]. destruct (IH H); auto.
Qed.
End DictFacts.

Lemma string_eqb_spec (x y : string) : String.eqb x y = true <-> x = y.
Proof. apply String.eqb_eq. Qed.

(** ** The merge loops, one item at a time *)

Lemma merge_bm25_get po scores docs :
  forall merged pid,
    dict_get String.eqb (merge_bm25 po scores docs merged) pid
    = fold_left (bm25_step scores) (filter (lexical_hit po pid) docs)
        (dict_get String.eqb merged pid).
Proof.
  induction docs as [| doc rest IH]; intros merged pid; simpl; [reflexivity |].
  unfold lexical_hit at 1. fold (doc_product_id doc).
  destruct (bm25_takes po doc); simpl; [| apply IH].
  rewrite IH. rewrite (String.eqb_sym (doc_product_id doc) pid).
  destruct (String.eqb pid (doc_product_id doc)) eqn:E.
  - apply String.eqb_eq in E. subst pid. simpl. f_equal.
    destruct (dict_get String.eqb merged (doc_product_id doc));
      rewrite (dict_get_set _ string_eqb_spec), String.eqb_refl; reflexivity.
  - f_equal.
    destruct (dict_get String.eqb merged (doc_product_id doc));
      rewrite (dict_get_set _ string_eqb_spec), E; reflexivity.
Qed.

Lemma merge_vector_get vres :
  forall merged pid,
    dict_get String.eqb (merge_vector vres merged) pid
    = fold_left vector_step (filter (vector_hit pid) vres)
        (dict_get String.eqb merged pid).
Proof.
  induction vres as [| r rest IH]; intros merged pid; simpl; [reflexivity |].
  unfold vector_hit at 1.
  destruct (Py.truthy (result_product_id r)); simpl; [| apply IH].
  rewrite IH. rewrite (String.eqb_sym (result_product_id r) pid).
  destruct (String.eqb pid (result_product_id r)) eqn:E.
  - apply String.eqb_eq in E. subst pid. simpl. f_equal.
    destruct (dict_get String.eqb merged (result_product_id r));
      rewrite (dict_get_set _ string_eqb_spec), String.eqb_refl; reflexivity.
  - f_equal.
    destruct (dict_get String.eqb merged (result_product_id r));
      rewrite (dict_get_set _ string_eqb_spec), E; reflexivity.
Qed.

Lemma running_max_spec (l : list Q) :
  forall a,
    In (fold_left Py.max l a) (a :: l)
    /\ a <= fold_left Py.max l a
    /\ (forall x, In x l -> x <= fold_left Py.max l a).
Proof.
  induction l as [| x l IH]; intros a; simpl.
  - split; [auto |]. split; [lra | tauto].
  - destruct (IH (Py.max a x)) as (Hin & Hle & Hall).
    pose proof (py_max_ge_l a x) as Hl. pose proof (py_max_ge_r a x) as Hr.
    split; [| split].
    + destruct Hin as [Hin | Hin]; [| auto].
      rewrite <- Hin. destruct (py_max_cases a x) as [-> | ->]; auto.
    + lra.
    + intros y [<- | Hy]; [lra | auto].
Qed.

Lemma bm25_fold_some scores docs :
  forall e,
  exists e',
    fold_left (bm25_step scores) docs (Some e) = Some e'
    /\ bm25_score e' = fold_left Py.max (map (bm25_lookup scores) docs) (bm25_score e)
    /\ vector_score e' = vector_score e
    /\ e_metadata e' = e_metadata e.
Proof.
  induction docs as [| doc rest IH]; intros e; simpl.
  - exists e. auto.
  - destruct (IH (set_bm25_score e (Py.max (bm25_score e) (bm25_lookup scores doc))))
      as (e' & Hf & Hb & Hv & Hm).
    exists e'. auto.
Qed.

Lemma vector_fold_some vres :
  forall e,
  exists e',
    fold_left vector_step vres (Some e) = Some e'
    /\ vector_score e' = fold_left Py.max (map similarity_score vres) (vector_score e)
    /\ bm25_score e' = bm25_score e
    /\ e_metadata e' = e_metadata e.
Proof.
  induction vres as [| r rest IH]; intros e; simpl.
  - exists e. auto.
  - destruct (IH (set_vector_score e (Py.max (vector_score e) (similarity_score r))))
      as (e' & Hf & Hb & Hv & Hm).
    exists e'. auto.
Qed.

Lemma bm25_fold_none scores doc docs :
  exists e',
    fold_left (bm25_step scores) (doc :: docs) None = Some e'
    /\ bm25_score e'
       = fold_left Py.max (map (bm25_lookup scores) docs) (bm25_lookup scores doc)
    /\ vector_score e' = 0.
Proof.
  assert (H : exists e, bm25_step scores None doc = Some e
                        /\ bm25_score e = bm25_lookup scores doc /\ vector_score e = 0)
    by (eexists; repeat split; reflexivity).
  destruct H as (e & He & Hb0 & Hv0).
  destruct (bm25_fold_some scores docs e) as (e' & Hf & Hb & Hv & _).
  exists e'.
  change (fold_left (bm25_step scores) (doc :: docs) None)
    with (fold_left (bm25_step scores) docs (bm25_step scores None doc)).
  rewrite He, Hf, Hb, Hv, Hb0, Hv0. auto.
Qed.

Lemma vector_fold_none r vres :
  exists e',
    fold_left vector_step (r :: vres) None = Some e'
    /\ vector_score e'
       = fold_left Py.max (map similarity_score vres) (similarity_score r)
    /\ bm25_score e' = 0.
Proof.
  assert (H : exists e, vector_step None r = Some e
                        /\ vector_score e = similarity_score r /\ bm25_score e = 0)
    by (eexists; repeat split; reflexivity).
  destruct H as (e & He & Hv0 & Hb0).
  destruct (vector_fold_some vres e) as (e' & Hf & Hv & Hb & _).
  exists e'.
  change (fold_left vector_step (r :: vres) None)
    with (fold_left vector_step vres (vector_step None r)).
  rewrite He, Hf, Hv, Hb, Hv0, Hb0. auto.
Qed.

Lemma path_max_running (x : Q) (l : list Q) : path_max (x :: l) (fold_left Py.max l x).
Proof.
  destruct (running_max_spec l x) as (Hin & Hle & Hall).
  split.
  - exists (fold_left Py.max l x). split; [exact Hin | reflexivity].
  - intros y [<- | Hy]; auto.
Qed.

Lemma path_max_from_zero (l : list Q) :
  Forall (fun x => 0 <= x) l -> path_max l (fold_left Py.max l 0).
Proof.
  intros Hpos. destruct (running_max_spec l 0) as (Hin & Hle & Hall).
  destruct l as [| y l]; [simpl; reflexivity |].
  split; [| exact Hall].
  destruct Hin as [Hin | Hin].
  - exists y. split; [left; reflexivity |].
    pose proof (Hall y (or_introl eq_refl)) as Hy.
    inversion Hpos; subst. rewrite <- Hin in Hy |- *. lra.
  - exists (fold_left Py.max (y :: l) 0). split; [exact Hin | reflexivity].
Qed.

Lemma merge_bm25_NoDup po scores docs :
  forall merged, NoDup (map fst merged) ->
                 NoDup (map fst (merge_bm25 po scores docs merged)).
Proof.
  induction docs as [| doc rest IH]; intros merged Hnd; simpl; [exact Hnd |].
  destruct (bm25_takes po doc); [| apply IH, Hnd].
  apply IH. destruct (dict_get String.eqb merged _);
    apply (dict_set_NoDup _ string_eqb_spec), Hnd.
Qed.

Lemma merge_vector_NoDup vres :
  forall merged, NoDup (map fst merged) -> NoDup (map fst (merge_vector vres merged)).
Proof.
  induction vres as [| r rest IH]; intros merged Hnd; simpl; [exact Hnd |].
  destruct (Py.truthy (result_product_id r)); [| apply IH, Hnd].
  apply IH. destruct (dict_get String.eqb merged _);
    apply (dict_set_NoDup _ string_eqb_spec), Hnd.
Qed.

Lemma merged_NoDup po scores docs vres :
  NoDup (map fst (merge_vector vres (merge_bm25 po scores docs []))).
Proof. apply merge_vector_NoDup, merge_bm25_NoDup. constructor. Qed.

(** The entry of an item after both loops, read off its observations. *)
Lemma merged_entry po scores docs vres pid :
  Forall (fun r => 0 <= similarity_score r) vres ->
  match dict_get String.eqb (merge_vector vres (merge_bm25 po scores docs [])) pid with
  | Some data =>
    path_max (lexical_observed po scores docs pid) (bm25_score data)
    /\ path_max (vector_observed vres pid) (vector_score data)
  | None => lexical_observed po scores docs pid = [] /\ vector_observed vres pid = []
  end.
Proof.
  intros Hpos.
  assert (Hobs : Forall (fun x => 0 <= x) (vector_observed vres pid)).
  { unfold vector_observed. rewrite Forall_forall in *. intros x Hx.
    apply in_map_iff in Hx. destruct Hx as (r & <- & Hr).
    apply filter_In in Hr. apply Hpos, Hr. }
  rewrite merge_vector_get, merge_bm25_get. simpl dict_get.
  unfold lexical_observed, vector_observed in *.
  destruct (filter (lexical_hit po pid) docs) as [| d L].
  - simpl fold_left at 2.
    destruct (filter (vector_hit pid) vres) as [| r Vs]; [simpl; auto |].
    destruct (vector_fold_none r Vs) as (e' & -> & Hv & Hb).
    rewrite Hv, Hb. split; [simpl; reflexivity |]. apply path_max_running.
  - destruct (bm25_fold_none scores d L) as (e1 & -> & Hb1 & Hv1).
    destruct (vector_fold_some (filter (vector_hit pid) vres) e1) as (e2 & -> & Hv2 & Hb2 & _).
    rewrite Hv2, Hb2, Hb1, Hv1. split.
    + apply path_max_running.
    + apply path_max_from_zero, Hobs.
Qed.

(** ** Deduplication *)









(** ** The merged union and the scoring loop *)

Lemma merge_bm25_keyed po scores docs :
  forall merged, keyed merged -> keyed (merge_bm25 po scores docs merged).
Proof.
  induction docs as [| doc rest IH]; intros merged Hk; simpl; [exact Hk |].
  destruct (bm25_takes po doc) eqn:Ht; [| apply IH, Hk].
  apply andb_true_iff in Ht. destruct Ht as [_ Ht].
  apply IH. intros k e Hin.
  destruct (dict_get String.eqb merged _) as [e0 |] eqn:E;
    apply (dict_set_In _ string_eqb_spec) in Hin;
    destruct Hin as [[-> ->] | Hin]; auto.
  apply (dict_get_In _ string_eqb_spec) in E. simpl. exact (Hk _ _ E).
Qed.

Lemma merge_vector_keyed vres :
  forall merged, keyed merged -> keyed (merge_vector vres merged).
Proof.
  induction vres as [| r rest IH]; intros merged Hk; simpl; [exact Hk |].
  destruct (Py.truthy (result_product_id r)) eqn:Ht; [| apply IH, Hk].
  apply IH. intros k e Hin.
  destruct (dict_get String.eqb merged _) as [e0 |] eqn:E;
    apply (dict_set_In _ string_eqb_spec) in Hin;
    destruct Hin as [[-> ->] | Hin]; auto.
  apply (dict_get_In _ string_eqb_spec) in E. simpl. exact (Hk _ _ E).
Qed.

Lemma hybrid_result_id query bw vw targets data :
  result_product_id (hybrid_result query bw vw targets data)
  = Py.get_default (md_product_id (e_metadata data)) "".
Proof. reflexivity. Qed.

Lemma score_merged_In query t bw vw targets merged r :
  In r (score_merged query t bw vw targets merged) ->
  exists k data,
    In (k, data) merged
    /\ r = hybrid_result query bw vw targets data
    /\ hybrid_keeps targets data = true
    /\ Py.geb (hybrid_final_score query bw vw targets data) t = true.
Proof.
  induction merged as [| [k data] rest IH]; simpl; [tauto |].
  destruct (hybrid_keeps targets data) eqn:Hk; simpl.
  - destruct (Py.geb _ t) eqn:Hg.
    + intros [<- | Hin].
      * exists k, data. auto.
      * destruct (IH Hin) as (k' & d' & H' & Hrest). exists k', d'. auto.
    + intros Hin. destruct (IH Hin) as (k' & d' & H' & Hrest). exists k', d'. auto.
  - intros Hin. destruct (IH Hin) as (k' & d' & H' & Hrest). exists k', d'. auto.
Qed.


Lemma merged_keyed po scores docs vres :
  keyed (merge_vector vres (merge_bm25 po scores docs [])).
Proof.
  apply merge_vector_keyed, merge_bm25_keyed. intros k e [].
Qed.






(** ** Rounding *)

Ltac qcompare_spec :=
  repeat match goal with
         | H : (_ ?= _) = Eq |- _ => apply Qeq_alt in H
         | H : (_ ?= _) = Lt |- _ => apply Qlt_alt in H
         | H : (_ ?= _) = Gt |- _ => apply Qgt_alt in H
         end.

Lemma round_half_even_mono (x y : Q) :
  x <= y -> (Py.round_half_even x <= Py.round_half_even y)%Z.
Proof.
  intros Hxy. unfold Py.round_half_even.
  pose proof (Qfloor_resp_le _ _ Hxy) as Hf.
  pose proof (Qfloor_le x) as Hx1. pose proof (Qlt_floor x) as Hx2.
  pose proof (Qfloor_le y) as Hy1. pose proof (Qlt_floor y) as Hy2.
  destruct (Z.eq_dec (Qfloor x) (Qfloor y)) as [E | E].
  - rewrite <- E in *.
    destruct (Qcompare (x - inject_Z (Qfloor x)) (1 # 2)) eqn:Cx;
      destruct (Qcompare (y - inject_Z (Qfloor x)) (1 # 2)) eqn:Cy;
      try (destruct (Z.even (Qfloor x))); try lia;
      qcompare_spec; exfalso; lra.
  - assert (Qfloor x + 1 <= Qfloor y)%Z by lia.
    destruct (Qcompare (x - inject_Z (Qfloor x)) (1 # 2));
      destruct (Qcompare (y - inject_Z (Qfloor y)) (1 # 2));
      try (destruct (Z.even (Qfloor x))); try (destruct (Z.even (Qfloor y))); lia.
Qed.

Lemma round4_mono (x y : Q) : x <= y -> Py.round4 x <= Py.round4 y.
Proof.
  intros Hxy. unfold Py.round4, Qdiv.
  apply Qmult_le_compat_r; [| vm_compute; discriminate].
  rewrite <- Zle_Qle. apply round_half_even_mono. lra.
Qed.

(** ** Where the results come from *)

Lemma semantic_loop_In query limit t po bk ecw targets results r :
  forall output,
    In r (semantic_loop query limit t po bk ecw targets results output) ->
    In r output
    \/ exists ds, In ds results /\ semantic_candidate query t po bk ecw targets ds = Some r.
Proof.
  induction results as [| ds rest IH]; intros output; simpl; [auto |].
  destruct (semantic_candidate query t po bk ecw targets ds) as [r0 |] eqn:E.
  - destruct (limit <=? Z.of_nat (List.length (output ++ [r0])))%Z.
    + intros Hin. apply in_app_or in Hin. destruct Hin as [Hin | [<- | []]]; [auto |].
      right. exists ds. auto.
    + intros Hin. destruct (IH _ Hin) as [Hin' | (ds' & Hds & Hc)].
      * apply in_app_or in Hin'. destruct Hin' as [Hin' | [<- | []]]; [auto |].
        right. exists ds. auto.
      * right. exists ds'. auto.
  - intros Hin. destruct (IH _ Hin) as [Hin' | (ds' & Hds & Hc)]; [auto |].
    right. exists ds'. auto.
Qed.

Lemma semantic_candidate_some query t po bk ecw targets doc score r :
  semantic_candidate query t po bk ecw targets (doc, score) = Some r ->
  t <= score
  /\ similarity_score r
     = Py.round4 (Py.min (semantic_final_score query bk ecw targets doc score) 1)
  /\ metadata r = doc_metadata doc.
Proof.
  unfold semantic_candidate.
  destruct (semantic_keeps t po ecw targets doc score) eqn:K; [| discriminate].
  intros H. injection H as <-. simpl. split; [| auto].
  unfold semantic_keeps in K. repeat (apply andb_true_iff in K; destruct K as [K ?]).
  apply negb_true_iff, ltb_ge in K. exact K.
Qed.

(** Every result of the single-path ranker stems from a hit of the backend
    whose raw similarity passed the threshold. *)
Lemma semantic_result_origin vu query limit t po bk ecw l r :
  semantic_search_products vu query limit t po bk ecw = Returned l -> In r l ->
  exists u results doc score,
    vu = Some u
    /\ similarity_search_with_relevance_scores (vectorstore u) query
         (if po then (limit * 3)%Z else limit) = Returned results
    /\ In (doc, score) results
    /\ t <= score
    /\ similarity_score r
       = Py.round4
           (Py.min
              (semantic_final_score query bk ecw
                 (if ecw then infer_target_categories_from_query query else [])
                 doc score) 1)
    /\ metadata r = doc_metadata doc.
Proof.
  intros H Hr.
  destruct (semantic_returns vu query limit t po bk ecw) as (l' & Hl & Hshape).
  assert (l' = l) by congruence. subst l'.
  destruct Hshape as [-> | (u & -> & Htry)]; [destruct Hr |].
  apply semantic_try_returned in Htry. destruct Htry as (results & Hb & ->).
  apply slice_to_incl, dedup_In, sort_desc_In, semantic_loop_In in Hr.
  destruct Hr as [[] | ([doc score] & Hds & Hc)].
  apply semantic_candidate_some in Hc. destruct Hc as (Ht & Hs & Hm).
  exists u, results, doc, score. auto 10.
Qed.

(** The single-path ranker caps what it reports at 1. *)
Lemma semantic_score_at_most_one vu query limit t po bk ecw l r :
  semantic_search_products vu query limit t po bk ecw = Returned l -> In r l ->
  similarity_score r <= 1.
Proof.
  intros H Hr.
  destruct (semantic_result_origin _ _ _ _ _ _ _ _ _ H Hr)
    as (u & results & doc & score & _ & _ & _ & _ & -> & _).
  assert (E : Py.round4 1 == 1) by (vm_compute; reflexivity).
  rewrite <- E at 2. apply round4_mono, py_min_le_r.
Qed.

(** ** The range of the reported score *)

(** C1, failing input: the fusion ranker on the catalogue entry "X-100
    speaker" (category 音頻設備, feature "waterproof"), found by both paths for
    the query "waterproof bluetooth speaker", reports the score 2.8275: the
    fused base 1 is multiplied by 1.45, 1.3 and 1.5 and never capped, where
    the single-path ranker caps the same candidate at 1. *)
Theorem hybrid_score_above_one :
  Sample.scores_of
    (hybrid_search_products
       (Some (Sample.lexical [Sample.doc 1 "X-100 speaker" Sample.speaker]))
       (Some (Sample.store [(Sample.doc 1 "X-100 speaker" Sample.speaker, 85 # 100)]))
       "waterproof bluetooth speaker" 10 (2 # 10) true (4 # 10) (6 # 10) true)
  = [28275 # 10000]
  /\ 1 < 28275 # 10000
  /\ Sample.scores_of
       (semantic_search_products
          (Some (Sample.store [(Sample.doc 1 "X-100 speaker" Sample.speaker, 85 # 100)]))
          "waterproof bluetooth speaker" 10 (2 # 10) true None true)
     = [10000 # 10000].
Proof.
  split; [vm_compute; reflexivity |]. split; [reflexivity |].
  vm_compute. reflexivity.
Qed.

(** ** The threshold *)

(** C2, as amended: the fusion path drops every candidate whose fused and
    adjusted score is below the threshold, and reports the survivors' scores
    rounded to four decimals; the single-path ranker compares the threshold
    with the raw similarity, before any adjustment, so each of its results
    stems from a hit whose raw similarity is at least the threshold. *)
Theorem threshold_by_path (langchain_community : option BM25Retriever)
    (vectorstore_updater : option VectorstoreUpdater) (query : string) (limit : Z)
    (score_threshold : Q) (product_only : bool) (boost_keywords : option (list string))
    (bm25_weight vector_weight : Q) (enable_category_weight : bool)
    (l : list Result) (r : Result) :
  In r l ->
  let targets :=
    if enable_category_weight then infer_target_categories_from_query query else [] in
  (semantic_search_products vectorstore_updater query limit score_threshold
     product_only boost_keywords enable_category_weight = Returned l ->
   exists u results doc score,
     vectorstore_updater = Some u
     /\ similarity_search_with_relevance_scores (vectorstore u) query
          (if product_only then (limit * 3)%Z else limit) = Returned results
     /\ In (doc, score) results
     /\ score_threshold <= score
     /\ similarity_score r
        = Py.round4
            (Py.min
               (semantic_final_score query boost_keywords enable_category_weight
                  targets doc score) 1)
     /\ metadata r = doc_metadata doc)
  /\ (forall u,
         hybrid_try langchain_community u query limit score_threshold product_only
           bm25_weight vector_weight enable_category_weight = Returned l ->
         exists data,
           score_threshold <= hybrid_final_score query bm25_weight vector_weight targets data
           /\ similarity_score r
              = Py.round4 (hybrid_final_score query bm25_weight vector_weight targets data)
           /\ Py.round4 score_threshold <= similarity_score r).
Proof.
  intros Hr targets. split.
  - intros H. exact (semantic_result_origin _ _ _ _ _ _ _ _ _ H Hr).
  - intros u Htry.
    apply hybrid_try_returned in Htry. destruct Htry as (raw & vres & _ & ->).
    apply slice_to_incl, sort_desc_In, score_merged_In in Hr.
    destruct Hr as (k & data & _ & -> & _ & Hg).
    apply geb_ge in Hg. exists data. split; [exact Hg |].
    split; [reflexivity |]. simpl. apply round4_mono, Hg.
Qed.

Lemma threshold_by_path_witness :
  exists data,
    2 # 10 <= hybrid_final_score "speaker" (4 # 10) (6 # 10)
                (infer_target_categories_from_query "speaker") data
    /\ 6675 # 10000
       = Py.round4 (hybrid_final_score "speaker" (4 # 10) (6 # 10)
                      (infer_target_categories_from_query "speaker") data)
    /\ Py.round4 (2 # 10) <= 6675 # 10000.
Proof.
  refine (proj2 (threshold_by_path
                   (Some (Sample.lexical [Sample.doc 4 "stand" Sample.stand]))
                   (Some (Sample.store_with [(Sample.doc 4 "stand" Sample.stand, 1 # 10)] []))
                   "speaker" 10 (2 # 10) true None (4 # 10) (6 # 10) true
                   [Sample.fused Sample.stand (6675 # 10000) (10000 # 10000) (0 # 10000)]
                   (Sample.fused Sample.stand (6675 # 10000) (10000 # 10000) (0 # 10000))
                   _) (Sample.store_with [(Sample.doc 4 "stand" Sample.stand, 1 # 10)] []) _).
  - left. reflexivity.
  - vm_compute. reflexivity.
Defined.

(** C2, counterexample: with the threshold 0.3, the single-path ranker
    returns the desk found with raw similarity 0.4 for the query "chair";
    its reported score, after the type demotion, is 0.2. *)
Lemma threshold_counterexample :
  Sample.scores_of
    (semantic_search_products
       (Some (Sample.store [(Sample.doc 3 "oak desk" Sample.desk, 4 # 10)]))
       "chair" 10 (3 # 10) true None true)
  = [2000 # 10000]
  /\ 2000 # 10000 < 3 # 10.
Proof.
  split; [vm_compute; reflexivity | reflexivity].
Qed.

(** ** The pipeline of the fusion ranker *)

Lemma attr_step_factor (metadata : Metadata) (query : string) (final_score : Q) :
  apply_attr_score (compute_attribute_match_score metadata query) final_score
  == final_score * attribute_factor query metadata.
Proof.
  unfold apply_attr_score, attribute_factor.
  destruct (Py.gtb _ _); [reflexivity | ring].
Qed.

Lemma hybrid_final_score_factors query bw vw targets data :
  hybrid_final_score query bw vw targets data
  == fused_score bw vw data
     * category_match_factor targets (e_metadata data)
     * attribute_factor query (e_metadata data)
     * type_multiplier (e_metadata data) query.
Proof.
  unfold hybrid_final_score.
  rewrite type_step_multiplier, attr_step_factor.
  unfold category_match_factor. destruct targets; ring.
Qed.

Lemma CandidateScorer_factors query targets metadata base :
  CandidateScorer query targets metadata base
  == base
     * calculate_category_weight (Py.get_default (md_category metadata) "") targets None
     * category_match_factor targets metadata
     * attribute_factor query metadata
     * type_multiplier metadata query.
Proof.
  unfold CandidateScorer.
  rewrite type_step_multiplier, attr_step_factor.
  unfold category_match_factor. destruct targets; [simpl; ring | ring].
Qed.

Lemma merged_vector_origin po scores docs vres pid data :
  In (pid, data) (merge_vector vres (merge_bm25 po scores docs [])) ->
  vector_score data = 0
  \/ exists vr, In vr vres /\ vector_score data = similarity_score vr.
Proof.
  intros Hin.
  apply (In_dict_get _ string_eqb_spec _ _ _ (merged_NoDup po scores docs vres)) in Hin.
  rewrite merge_vector_get, merge_bm25_get in Hin. simpl dict_get in Hin.
  assert (Hsub : forall x, In x (map similarity_score (filter (vector_hit pid) vres)) ->
                           exists vr, In vr vres /\ x = similarity_score vr).
  { intros x Hx. apply in_map_iff in Hx. destruct Hx as (vr & <- & Hvr).
    apply filter_In in Hvr. exists vr. split; [apply Hvr | reflexivity]. }
  destruct (filter (lexical_hit po pid) docs) as [| d L].
  - simpl fold_left at 2 in Hin.
    destruct (filter (vector_hit pid) vres) as [| r Vs]; [discriminate |].
    destruct (vector_fold_none r Vs) as (e' & He & Hv & _).
    rewrite He in Hin. injection Hin as <-.
    right. apply Hsub. rewrite Hv.
    apply (running_max_spec (map similarity_score Vs) (similarity_score r)).
  - destruct (bm25_fold_none scores d L) as (e1 & He1 & _ & Hv1).
    rewrite He1 in Hin.
    destruct (vector_fold_some (filter (vector_hit pid) vres) e1) as (e2 & He2 & Hv2 & _).
    rewrite He2 in Hin. injection Hin as <-.
    rewrite Hv2, Hv1.
    destruct (running_max_spec (map similarity_score (filter (vector_hit pid) vres)) 0)
      as ([H0 | Hobs] & _).
    + left. symmetry. exact H0.
    + right. apply Hsub, Hobs.
Qed.

(** What a completed [try] of the fusion ranker went through: the retriever
    class was imported, built on the gathered documents and answered [raw];
    the single-path ranker answered [vector_results]; the returned list is the
    sorted, sliced scoring of the union merged from the two. *)
Lemma hybrid_try_inversion lc u query limit t po bw vw ecw l :
  hybrid_try lc u query limit t po bw vw ecw = Returned l ->
  exists BM25 bm25_retriever raw vector_results,
    lc = Some BM25
    /\ from_documents BM25 (gather_all_docs (vectorstore u)) = Returned bm25_retriever
    /\ invoke bm25_retriever query (limit * 3)%Z = Returned raw
    /\ semantic_search_products (Some u) query (limit * 3)%Z t po None ecw
       = Returned vector_results
    /\ l = Py.slice_to
             (sort_desc
                (score_merged query t bw vw
                   (if ecw then infer_target_categories_from_query query else [])
                   (merge_vector (Py.slice_to vector_results (limit * 2)%Z)
                      (merge_bm25 po (bm25_scores_of raw)
                         (Py.slice_to raw (limit * 2)%Z) []))))
             limit.
Proof.
  unfold hybrid_try, bind.
  destruct lc as [BM25 |]; [| discriminate].
  destruct (all_docs_truthy _).
  - destruct (from_documents BM25 _) as [retr | e] eqn:F; [| discriminate].
    destruct (invoke retr query (limit * 3)%Z) as [raw | e] eqn:I; [| discriminate].
    destruct (semantic_search_products _ _ _ _ _ _ _) as [vres | e]; [| discriminate].
    intros H. injection H as <-. exists BM25, retr, raw, vres. auto.
  - destruct (semantic_search_products _ _ _ _ _ _ _); discriminate.
Qed.

(** C3, as amended: every result the fusion path returns is built from the
    merged entry of its own product id, the entry the two merge loops made
    from the retriever's answer and the single-path ranker's answer; its
    score is the rounding of that entry's fused base taken once through the
    category-match boost (when there are target categories), the attribute
    boost and the product-type adjustment, with one query analysis for the
    whole batch; the category-weight multiplier is not applied to the fused
    base, so the specification's scorer on the fused base is this score times
    the category weight; and the vector component that enters the fused base
    is 0 or a score the single-path ranker returned, already adjusted and
    capped there. *)
Theorem fusion_pipeline (langchain_community : option BM25Retriever)
    (u : VectorstoreUpdater) (query : string) (limit : Z)
    (score_threshold : Q) (product_only : bool)
    (bm25_weight vector_weight : Q) (enable_category_weight : bool)
    (l : list Result) (r : Result) :
  hybrid_try langchain_community u query limit score_threshold product_only
    bm25_weight vector_weight enable_category_weight = Returned l ->
  In r l ->
  let targets :=
    if enable_category_weight then infer_target_categories_from_query query else [] in
  exists BM25 bm25_retriever raw vector_results data,
    langchain_community = Some BM25
    /\ from_documents BM25 (gather_all_docs (vectorstore u)) = Returned bm25_retriever
    /\ invoke bm25_retriever query (limit * 3)%Z = Returned raw
    /\ semantic_search_products (Some u) query (limit * 3)%Z score_threshold
         product_only None enable_category_weight = Returned vector_results
    /\ dict_get String.eqb
         (merge_vector (Py.slice_to vector_results (limit * 2)%Z)
            (merge_bm25 product_only (bm25_scores_of raw)
               (Py.slice_to raw (limit * 2)%Z) []))
         (result_product_id r)
       = Some data
    /\ r = hybrid_result query bm25_weight vector_weight targets data
    /\ similarity_score r
       = Py.round4 (hybrid_final_score query bm25_weight vector_weight targets data)
    /\ hybrid_final_score query bm25_weight vector_weight targets data
       == (bm25_weight * bm25_score data + vector_weight * vector_score data)
          * category_match_factor targets (e_metadata data)
          * attribute_factor query (e_metadata data)
          * type_multiplier (e_metadata data) query
    /\ CandidateScorer query targets (e_metadata data)
         (fused_score bm25_weight vector_weight data)
       == calculate_category_weight
            (Py.get_default (md_category (e_metadata data)) "") targets None
          * hybrid_final_score query bm25_weight vector_weight targets data
    /\ (vector_score data = 0
        \/ exists doc score,
             vector_score data
             = Py.round4
                 (Py.min
                    (semantic_final_score query None enable_category_weight targets
                       doc score) 1)).
Proof.
  intros Htry Hr targets.
  apply hybrid_try_inversion in Htry.
  destruct Htry as (BM25 & retr & raw & vres & Hlc & Hfrom & Hinv & Hsem & ->).
  apply slice_to_incl, sort_desc_In, score_merged_In in Hr.
  destruct Hr as (k & data & Hin & -> & _ & _).
  exists BM25, retr, raw, vres, data.
  repeat (split; [assumption |]).
  split.
  { rewrite hybrid_result_id.
    rewrite (proj1 (merged_keyed _ _ _ _ _ _ Hin)).
    apply (In_dict_get _ string_eqb_spec), Hin. apply merged_NoDup. }
  split; [reflexivity |]. split; [reflexivity |].
  split.
  { rewrite hybrid_final_score_factors. unfold fused_score. ring. }
  split.
  { rewrite CandidateScorer_factors, hybrid_final_score_factors. ring. }
  apply merged_vector_origin in Hin. destruct Hin as [H0 | (vr & Hvr & Hv)]; [auto |].
  right. apply slice_to_incl in Hvr.
  destruct (semantic_result_origin _ _ _ _ _ _ _ _ _ Hsem Hvr)
    as (_ & _ & doc & score & _ & _ & _ & _ & Hs & _).
  exists doc, score. rewrite Hv. exact Hs.
Qed.

Lemma fusion_pipeline_witness :
  exists data,
    dict_get String.eqb
      (merge_vector []
         (merge_bm25 true (bm25_scores_of [Sample.doc 4 "stand" Sample.stand])
            [Sample.doc 4 "stand" Sample.stand] []))
      "p4"
    = Some data
    /\ Sample.fused Sample.stand (6675 # 10000) (10000 # 10000) (0 # 10000)
       = hybrid_result "speaker" (4 # 10) (6 # 10)
           (infer_target_categories_from_query "speaker") data.
Proof.
  destruct (fusion_pipeline
              (Some (Sample.lexical [Sample.doc 4 "stand" Sample.stand]))
              (Sample.store_with [(Sample.doc 4 "stand" Sample.stand, 1 # 10)] [])
              "speaker" 10 (2 # 10) true (4 # 10) (6 # 10) true
              [Sample.fused Sample.stand (6675 # 10000) (10000 # 10000) (0 # 10000)]
              (Sample.fused Sample.stand (6675 # 10000) (10000 # 10000) (0 # 10000))
              eq_refl (or_introl eq_refl))
    as (BM25 & retr & raw & vres & data & HB & Hf & Hi & Hs & Hd & Hr & _).
  injection HB as <-. injection Hf as <-. injection Hi as <-. injection Hs as <-.
  exists data. split; [exact Hd | exact Hr].
Defined.

(** C3, counterexample: for the query "speaker", the item "speaker stand" of
    category 家具 is found by the lexical path only; its fused base is 0.4 and
    the fusion ranker returns 0.6675, whereas the full scorer of the
    specification, with the category weight 0.7, gives 0.46725 on that base. *)
Lemma fusion_pipeline_counterexample :
  Sample.scores_of
    (hybrid_search_products (Some (Sample.lexical [Sample.doc 4 "stand" Sample.stand]))
       (Some (Sample.store_with [(Sample.doc 4 "stand" Sample.stand, 1 # 10)] []))
       "speaker" 10 (2 # 10) true (4 # 10) (6 # 10) true)
  = [6675 # 10000]
  /\ Forall (fun ke => fused_score (4 # 10) (6 # 10) (snd ke) == 4 # 10)
       (merge_vector []
          (merge_bm25 true (bm25_scores_of [Sample.doc 4 "stand" Sample.stand])
             [Sample.doc 4 "stand" Sample.stand] []))
  /\ finalScore
       (CandidateScorer "speaker" (infer_target_categories_from_query "speaker")
          Sample.stand (4 # 10))
     == 46725 # 100000
  /\ ~ 6675 # 10000
       == Py.round4
            (finalScore
               (CandidateScorer "speaker" (infer_target_categories_from_query "speaker")
                  Sample.stand (4 # 10))).
Proof.
  split; [vm_compute; reflexivity |].
  split; [repeat constructor |].
  split; [vm_compute; reflexivity |].
  vm_compute. discriminate.
Qed.

(** * Further properties of the module *)

(** ** The category weight and the category match *)

(** X1: [calculate_category_weight] returns 1 exactly when there is no target
    category, and otherwise one of 2, 3/2 and 7/10; the 1.3 that the source
    assigns to [related_boost] is never returned. *)
Theorem category_weight_values (product_category : string)
    (target_categories : list string) (boost_keywords : option (list string)) :
  let w := calculate_category_weight product_category target_categories boost_keywords in
  match target_categories with
  | [] => w = 1
  | _ => w = 2 \/ w = 3 # 2 \/ w = 7 # 10
  end
  /\ ~ w == 13 # 10.
Proof.
  intros w. subst w.
  destruct target_categories as [| t ts].
  - split; [reflexivity | simpl; discriminate].
  - rewrite ccw_cases by discriminate.
    destruct (literal_match _ _); [split; [auto | discriminate] |].
    destruct (audio_related _ _); [split; [auto | discriminate] |].
    destruct (projector_affinity _ _); split; auto; discriminate.
Qed.

Opaque CATEGORY_KEYWORDS.

Lemma category_hits_spec (content : string) (target_categories : list string) :
  forall acc,
    let hit cat :=
      existsb (keyword_in content) (table_get CATEGORY_KEYWORDS cat) in
    let res := category_hits content target_categories acc in
    (fst acc <= fst res)%nat
    /\ (fst res - fst acc <= snd res - snd acc)%nat
    /\ (snd acc <= snd res)%nat
    /\ (existsb hit target_categories = true -> (fst acc < fst res)%nat)
    /\ (existsb hit target_categories = false -> fst res = fst acc)
    /\ ((exists cat, In cat target_categories /\ table_get CATEGORY_KEYWORDS cat <> []) ->
        (snd acc < snd res)%nat).
Proof.
  induction target_categories as [| cat rest IH]; intros acc hit res; subst hit res.
  - simpl. repeat split; try lia; try discriminate. intros (c & [] & _).
  - simpl category_hits. simpl existsb.
    destruct (table_get CATEGORY_KEYWORDS cat) as [| kw kws] eqn:E.
    + specialize (IH acc). simpl in IH. destruct IH as (H1 & H2 & H3 & H4 & H5 & H6).
      simpl existsb. repeat split; auto.
      intros (c & [<- | Hc] & Hne); [congruence |]. apply H6. exists c. auto.
    + assert (Hlen : (0 < List.length (kw :: kws))%nat) by (simpl; lia).
      remember (kw :: kws) as kwl eqn:Hkwl. clear Hkwl.
      pose proof (filter_length_le (keyword_in content) kwl) as Hle.
      assert (Hex : existsb (keyword_in content) kwl = true ->
                    (0 < List.length (filter (keyword_in content) kwl))%nat).
      { intros Ht. apply existsb_exists in Ht. destruct Ht as (x & Hx & Hkx).
        assert (Hin : In x (filter (keyword_in content) kwl))
          by (apply filter_In; auto).
        destruct (filter (keyword_in content) kwl); [destruct Hin | simpl; lia]. }
      assert (Hnex : existsb (keyword_in content) kwl = false ->
                     List.length (filter (keyword_in content) kwl) = 0%nat).
      { intros Hf. destruct (filter (keyword_in content) kwl) as [| x l] eqn:F;
          [reflexivity |].
        assert (Hin : In x (filter (keyword_in content) kwl)) by (rewrite F; left; auto).
        apply filter_In in Hin. destruct Hin as [Hx Hkx].
        assert (existsb (keyword_in content) kwl = true)
          by (apply existsb_exists; exists x; auto).
        congruence. }
      specialize (IH ((fst acc + List.length (filter (keyword_in content) kwl))%nat,
                      (snd acc + List.length kwl)%nat)).
      cbn [fst snd] in IH. destruct IH as (H1 & H2 & H3 & H4 & H5 & H6).
      repeat split; try lia.
      * destruct (existsb (keyword_in content) kwl) eqn:Ek; simpl.
        -- intros _. specialize (Hex eq_refl). lia.
        -- intros Hr. specialize (H4 Hr). lia.
      * destruct (existsb (keyword_in content) kwl) eqn:Ek; simpl; [discriminate |].
        intros Hr. rewrite (H5 Hr), (Hnex eq_refl). lia.
Qed.

Transparent CATEGORY_KEYWORDS.

Lemma nat_ratio_bounds (h d : nat) :
  (0 < d)%nat ->
  0 <= inject_Z (Z.of_nat h) / inject_Z (Z.of_nat d)
  /\ ((d <= 4 * h)%nat -> 1 # 4 <= inject_Z (Z.of_nat h) / inject_Z (Z.of_nat d))
  /\ ((h <= d)%nat -> inject_Z (Z.of_nat h) / inject_Z (Z.of_nat d) <= 1).
Proof.
  intros Hd.
  assert (Hq : 0 < inject_Z (Z.of_nat d)).
  { replace 0 with (inject_Z 0) by reflexivity. rewrite <- Zlt_Qlt. lia. }
  split; [| split].
  - apply Qle_shift_div_l; [exact Hq |]. rewrite Qmult_0_l.
    replace 0 with (inject_Z 0) by reflexivity. rewrite <- Zle_Qle. lia.
  - intros H. apply Qle_shift_div_l; [exact Hq |].
    assert (inject_Z (Z.of_nat d) <= 4 * inject_Z (Z.of_nat h)).
    { replace 4 with (inject_Z 4) by reflexivity. rewrite <- inject_Z_mult, <- Zle_Qle. lia. }
    lra.
  - intros H. apply Qle_shift_div_r; [exact Hq |]. rewrite Qmult_1_l.
    rewrite <- Zle_Qle. lia.
Qed.

Lemma category_match_score_bounds (metadata : Metadata) (target_categories : list string) :
  0 <= compute_category_match_score metadata target_categories <= 1.
Proof.
  unfold compute_category_match_score.
  destruct target_categories as [| t ts]; [lra |].
  destruct (Py.truthy _ && Py.mem _ _); [lra |].
  destruct (category_hits (searchable_text metadata) (t :: ts) (0, 0)%nat) as [h p] eqn:E.
  destruct (p =? 0)%nat; [lra |].
  destruct (nat_ratio_bounds h (Nat.max 1 (Nat.min p 4))) as (H0 & _ & _); [lia |].
  split; [apply py_min_glb; lra | apply py_min_le_l].
Qed.

(** X2: [compute_category_match_score] always lies in [0, 1], so the
    category-match boost [1 + 0.45 * match_score] of both rankers is a factor
    between 1 and 1.45. *)
Theorem category_match_score_range (metadata : Metadata) (target_categories : list string) :
  0 <= compute_category_match_score metadata target_categories <= 1
  /\ 1 <= category_match_factor target_categories metadata <= 145 # 100.
Proof.
  pose proof (category_match_score_bounds metadata target_categories) as H.
  split; [exact H |].
  unfold category_match_factor. destruct target_categories; lra.
Qed.

Lemma matching_score_quarter (metadata : Metadata) (target_categories : list string) :
  is_product_matching_categories metadata target_categories = true ->
  1 # 4 <= compute_category_match_score metadata target_categories.
Proof.
  intros Hm.
  unfold compute_category_match_score, is_product_matching_categories in *.
  destruct target_categories as [| t ts]; [lra |].
  destruct (Py.truthy _ && Py.mem _ _); [lra |].
  pose proof (category_hits_spec (searchable_text metadata) (t :: ts) (0, 0)%nat) as S.
  cbv zeta in S.
  destruct (category_hits (searchable_text metadata) (t :: ts) (0, 0)%nat) as [h p].
  cbn [fst snd] in S. destruct S as (_ & S2 & _ & S4 & _).
  specialize (S4 Hm).
  destruct (p =? 0)%nat eqn:P; [apply Nat.eqb_eq in P; lia |].
  destruct (nat_ratio_bounds h (Nat.max 1 (Nat.min p 4))) as (_ & Hq & _); [lia |].
  apply py_min_glb; [lra | apply Hq; lia].
Qed.

(** X3: a product that passes [is_product_matching_categories] has a category
    match score of at least 1/4, so the later test [match_score < 0.12] of
    both rankers never rejects a product that the boolean filter kept. *)
Theorem matching_product_scores_quarter (metadata : Metadata)
    (target_categories : list string) :
  is_product_matching_categories metadata target_categories = true ->
  1 # 4 <= compute_category_match_score metadata target_categories
  /\ Py.ltb (compute_category_match_score metadata target_categories) (12 # 100) = false.
Proof.
  intros Hm.
  pose proof (matching_score_quarter metadata target_categories Hm) as H.
  split; [exact H |]. apply ltb_ge. lra.
Qed.

Lemma matching_product_scores_quarter_witness :
  1 # 4 <= compute_category_match_score Sample.stand ["音頻設備"].
Proof.
  apply (matching_product_scores_quarter Sample.stand ["音頻設備"]).
  vm_compute. reflexivity.
Defined.

(** ** Query analysis *)

Lemma existsb_false_filter {A} (f : A -> bool) (l : list A) :
  existsb f l = false <-> filter f l = [].
Proof.
  induction l as [| x l IH]; simpl; [tauto |].
  destruct (f x); simpl; [split; discriminate | exact IH].
Qed.

Lemma map_fst_filter_NoDup {A B} (f : A * B -> bool) (l : list (A * B)) :
  NoDup (map fst l) -> NoDup (map fst (filter f l)).
Proof.
  induction l as [| x l IH]; simpl; intros Hnd; [constructor |].
  inversion Hnd as [| ? ? Hnotin Hnd']; subst.
  destruct (f x); simpl; [| auto].
  constructor; [| auto].
  intros Hin. apply Hnotin. apply in_map_iff in Hin. destruct Hin as (y & Hy & Hin).
  apply filter_In in Hin. rewrite <- Hy. apply in_map, Hin.
Qed.

Lemma category_keys_NoDup : NoDup (map fst CATEGORY_KEYWORDS).
Proof.
  assert (H : nodup string_dec (map fst CATEGORY_KEYWORDS) = map fst CATEGORY_KEYWORDS)
    by (vm_compute; reflexivity).
  rewrite <- H. apply NoDup_nodup.
Qed.

Lemma category_keys_have_keywords (cat : string) :
  In cat (map fst CATEGORY_KEYWORDS) -> table_get CATEGORY_KEYWORDS cat <> [].
Proof.
  assert (H : forallb (fun c => nonempty (table_get CATEGORY_KEYWORDS c))
                (map fst CATEGORY_KEYWORDS) = true) by (vm_compute; reflexivity).
  rewrite forallb_forall in H. intros Hin E. specialize (H cat Hin).
  rewrite E in H. discriminate.
Qed.

Lemma inferred_is_key (query cat : string) :
  In cat (infer_target_categories_from_query query) -> In cat (map fst CATEGORY_KEYWORDS).
Proof.
  unfold infer_target_categories_from_query. intros H.
  apply in_map_iff in H. destruct H as (ck & <- & Hck).
  apply filter_In in Hck. apply in_map, Hck.
Qed.

(** X4: the categories inferred from a query are keys of the keyword table,
    each listed once, and a category is inferred exactly when one of the
    keywords of an entry of that name occurs in the lower-cased query; the
    keyword list of [extract_category_keywords_from_query] is empty exactly
    when no category is inferred. *)
Theorem inferred_categories_sound (query : string) :
  NoDup (infer_target_categories_from_query query)
  /\ (forall cat,
         In cat (infer_target_categories_from_query query)
         <-> exists keywords keyword,
               In (cat, keywords) CATEGORY_KEYWORDS /\ In keyword keywords
               /\ Py.str_in (Py.lower keyword) (Py.lower query) = true)
  /\ (extract_category_keywords_from_query query = []
      <-> infer_target_categories_from_query query = []).
Proof.
  split; [| split].
  - apply map_fst_filter_NoDup, category_keys_NoDup.
  - intros cat. unfold infer_target_categories_from_query. rewrite in_map_iff. split.
    + intros ([c kws] & <- & Hck). apply filter_In in Hck. destruct Hck as [Hin Hex].
      apply existsb_exists in Hex. destruct Hex as (kw & Hkw & Hs).
      exists kws, kw. auto.
    + intros (kws & kw & Hin & Hkw & Hs). exists (cat, kws). split; [reflexivity |].
      apply filter_In. split; [exact Hin |]. apply existsb_exists. exists kw. auto.
  - unfold extract_category_keywords_from_query, infer_target_categories_from_query,
      list_of_set.
    set (f := fun keyword => Py.str_in (Py.lower keyword) (Py.lower query)).
    generalize CATEGORY_KEYWORDS. intros table.
    assert (Hnodup : forall l : list string, nodup string_dec l = [] <-> l = []).
    { intros l. split; [| intros ->; reflexivity].
      destruct l as [| x l]; [reflexivity |]. intros H.
      assert (Hin : In x (nodup string_dec (x :: l))) by (apply nodup_In; left; auto).
      rewrite H in Hin. destruct Hin. }
    rewrite Hnodup.
    induction table as [| [c kws] rest IH]; simpl; [tauto |].
    destruct (existsb f kws) eqn:E.
    + simpl. split; [| discriminate].
      intros H. apply app_eq_nil in H. destruct H as [H _].
      apply existsb_false_filter in H. congruence.
    + apply existsb_false_filter in E. rewrite E. simpl. exact IH.
Qed.

(** X5: against the categories inferred from a query, a product that fails
    [is_product_matching_categories] has category match score 0; with X3, the
    boolean filter and the score agree on inferred categories. *)
Theorem unmatched_product_scores_zero (metadata : Metadata) (query : string) :
  is_product_matching_categories metadata (infer_target_categories_from_query query)
  = false ->
  compute_category_match_score metadata (infer_target_categories_from_query query) == 0.
Proof.
  intros Hm.
  pose proof (inferred_is_key query) as Hkey.
  unfold compute_category_match_score, is_product_matching_categories in *.
  destruct (infer_target_categories_from_query query) as [| t ts]; [discriminate |].
  destruct (Py.truthy _ && Py.mem _ _); [discriminate |].
  pose proof (category_hits_spec (searchable_text metadata) (t :: ts) (0, 0)%nat) as S.
  cbv zeta in S.
  destruct (category_hits (searchable_text metadata) (t :: ts) (0, 0)%nat) as [h p].
  cbn [fst snd] in S. destruct S as (_ & _ & _ & _ & S5 & S6).
  specialize (S5 Hm). subst h.
  assert (Hp : (0 < p)%nat).
  { apply S6. exists t. split; [left; reflexivity |].
    apply category_keys_have_keywords, Hkey. left. reflexivity. }
  destruct (p =? 0)%nat eqn:P; [apply Nat.eqb_eq in P; lia |].
  unfold Py.min.
  assert (E : inject_Z (Z.of_nat 0) / inject_Z (Z.of_nat (Nat.max 1 (Nat.min p 4))) == 0).
  { unfold Qdiv. simpl inject_Z at 1. apply Qmult_0_l. }
  destruct (Py.ltb _ 1) eqn:L; [exact E |].
  apply ltb_ge in L. rewrite E in L. lra.
Qed.

Lemma unmatched_product_scores_zero_witness :
  compute_category_match_score Sample.desk (infer_target_categories_from_query "speaker")
  == 0.
Proof.
  apply (unmatched_product_scores_zero Sample.desk "speaker").
  vm_compute. reflexivity.
Defined.

(** ** The attribute score *)

Lemma attribute_counts_spec (table : list (string * list string)) (query_lower text : string) :
  forall acc,
    (fst acc <= fst (attribute_counts table query_lower text acc))%nat
    /\ (fst (attribute_counts table query_lower text acc) - fst acc
        <= snd (attribute_counts table query_lower text acc) - snd acc)%nat
    /\ (snd acc <= snd (attribute_counts table query_lower text acc))%nat.
Proof.
  induction table as [| [attr kws] rest IH]; intros acc; simpl; [lia |].
  destruct (find (keyword_in query_lower) kws) as [kw |]; [| apply IH].
  match goal with
  | |- context [attribute_counts rest query_lower text ?a] => specialize (IH a)
  end.
  cbn [fst snd] in IH. destruct (keyword_in text kw); lia.
Qed.

Lemma attribute_score_bounds (metadata : Metadata) (query : string) :
  0 <= compute_attribute_match_score metadata query <= 1.
Proof.
  unfold compute_attribute_match_score.
  pose proof (attribute_counts_spec ATTRIBUTE_KEYWORDS (Py.lower query)
                (product_text metadata) (0, 0)%nat) as S.
  destruct (attribute_counts _ _ _ _) as [m t]. cbn [fst snd] in S.
  destruct (t =? 0)%nat; [lra |].
  destruct (nat_ratio_bounds m (Nat.max 1 t)) as (H0 & _ & H1); [lia |].
  split; [exact H0 | apply H1; lia].
Qed.

(** X6: [compute_attribute_match_score] always lies in [0, 1], so the
    attribute step multiplies a score by a factor between 1 and 1.3 and never
    lowers a non-negative score. *)
Theorem attribute_score_range (metadata : Metadata) (query : string) :
  0 <= compute_attribute_match_score metadata query <= 1
  /\ 1 <= attribute_factor query metadata <= 13 # 10.
Proof.
  pose proof (attribute_score_bounds metadata query) as H.
  split; [exact H |].
  unfold attribute_factor. destruct (Py.gtb _ _); lra.
Qed.

(** ** The order, range and provenance of the returned results *)

Lemma take_sorted {A} (R : A -> A -> Prop) (n : nat) (l : list A) :
  StronglySorted R l -> StronglySorted R (firstn n l).
Proof.
  intros H. revert n. induction H as [| x l Hs IH Hall]; intros [| n]; simpl;
    try constructor.
  - apply IH.
  - rewrite Forall_forall in *. intros y Hy. apply Hall. eapply take_In; exact Hy.
Qed.

Lemma slice_to_sorted {A} (R : A -> A -> Prop) (l : list A) (n : Z) :
  StronglySorted R l -> StronglySorted R (Py.slice_to l n).
Proof.
  intros H. unfold Py.slice_to. destruct (0 <=? n)%Z; apply take_sorted, H.
Qed.

Lemma dedup_sorted (l : list Result) :
  StronglySorted score_ge l -> forall seen, StronglySorted score_ge (dedup seen l).
Proof.
  induction 1 as [| x l Hs IH Hall]; intros seen; simpl; [constructor |].
  assert (Hkeep : forall seen', Forall (score_ge x) (dedup seen' l)).
  { intros seen'. rewrite Forall_forall in *. intros y Hy. apply Hall.
    eapply dedup_In; exact Hy. }
  destruct (Py.truthy (result_product_id x) && negb (Py.mem (result_product_id x) seen)).
  - constructor; [apply IH | apply Hkeep].
  - destruct (negb (Py.truthy (result_product_id x))); [| apply IH].
    constructor; [apply IH | apply Hkeep].
Qed.

(** X7: the list either ranker returns is in descending order of score:
    along it, no result has a higher score than an earlier one. *)
Theorem ranked_descending (langchain_community : option BM25Retriever)
    (vectorstore_updater : option VectorstoreUpdater) (query : string) (limit : Z)
    (score_threshold : Q) (product_only : bool) (boost_keywords : option (list string))
    (bm25_weight vector_weight : Q) (enable_category_weight : bool) (l : list Result) :
  semantic_search_products vectorstore_updater query limit score_threshold
    product_only boost_keywords enable_category_weight = Returned l
  \/ hybrid_search_products langchain_community vectorstore_updater query limit
       score_threshold product_only bm25_weight vector_weight
       enable_category_weight = Returned l ->
  StronglySorted score_ge l.
Proof.
  assert (Hsem : forall bk l',
             semantic_search_products vectorstore_updater query limit score_threshold
               product_only bk enable_category_weight = Returned l' ->
             StronglySorted score_ge l').
  { intros bk l' H.
    destruct (semantic_returns vectorstore_updater query limit score_threshold
                product_only bk enable_category_weight) as (l0 & Hl & Hshape).
    assert (l0 = l') by congruence. subst l0.
    destruct Hshape as [-> | (u & _ & Htry)]; [constructor |].
    apply semantic_try_returned in Htry. destruct Htry as (results & _ & ->).
    apply slice_to_sorted, dedup_sorted, sort_desc_sorted. }
  intros [H | H]; [eapply Hsem; exact H |].
  destruct (hybrid_returns langchain_community vectorstore_updater query limit
              score_threshold product_only bm25_weight vector_weight
              enable_category_weight) as (l0 & Hl & Hshape).
  assert (l0 = l) by congruence. subst l0.
  destruct Hshape as [-> | [(u & _ & Htry) | Hfallback]].
  - constructor.
  - apply hybrid_try_returned in Htry. destruct Htry as (raw & vres & _ & ->).
    apply slice_to_sorted, sort_desc_sorted.
  - eapply Hsem. exact Hfallback.
Qed.

Lemma ranked_descending_witness :
  StronglySorted score_ge
    (Sample.list_of
       (hybrid_search_products (Some (Sample.lexical Sample.shelf))
          (Some (Sample.store [(Sample.doc 1 "speaker" Sample.speaker, 85 # 100)]))
          "xyz" 3 (2 # 10) true (4 # 10) (6 # 10) true)).
Proof.
  apply (ranked_descending (Some (Sample.lexical Sample.shelf))
           (Some (Sample.store [(Sample.doc 1 "speaker" Sample.speaker, 85 # 100)]))
           "xyz" 3 (2 # 10) true None (4 # 10) (6 # 10) true).
  right. vm_compute. reflexivity.
Defined.

Lemma category_weight_nonneg product_category target_categories boost_keywords :
  0 <= calculate_category_weight product_category target_categories boost_keywords.
Proof.
  unfold calculate_category_weight.
  destruct target_categories; [lra |].
  repeat match goal with
         | |- context [if ?b then _ else _] => destruct b
         end; lra.
Qed.

Lemma apply_attr_nonneg (attr_score final_score : Q) :
  0 <= attr_score -> 0 <= final_score -> 0 <= apply_attr_score attr_score final_score.
Proof.
  intros Ha Hs. unfold apply_attr_score. destruct (Py.gtb _ _); [nra | exact Hs].
Qed.

Lemma apply_type_nonneg (type_score final_score : Q) :
  0 <= final_score -> 0 <= apply_type_score type_score final_score.
Proof.
  intros Hs. unfold apply_type_score.
  destruct (Py.geb _ _); [lra |]. destruct (Py.ltb _ _); lra.
Qed.

Lemma boost_loop_nonneg (boost_keywords : list string) (content_lower : string) :
  forall final_score,
    0 <= final_score -> 0 <= boost_loop boost_keywords content_lower final_score.
Proof.
  induction boost_keywords as [| kw rest IH]; intros s Hs; simpl; [exact Hs |].
  apply IH. destruct (keyword_in content_lower kw); [| exact Hs].
  apply py_min_glb; lra.
Qed.

Lemma semantic_final_score_nonneg query bk ecw targets doc score :
  0 <= score -> 0 <= semantic_final_score query bk ecw targets doc score.
Proof.
  intros Hs. unfold semantic_final_score.
  pose proof (category_weight_nonneg
                (Py.get_default (md_category (doc_metadata doc)) "") targets bk) as Hw.
  pose proof (category_match_score_bounds (doc_metadata doc) targets) as Hm.
  pose proof (attribute_score_bounds (doc_metadata doc) query) as Ha.
  assert (H1 : 0 <= (if ecw && nonempty targets
                     then (if ecw && nonempty targets
                           then score * calculate_category_weight
                                          (Py.get_default (md_category (doc_metadata doc)) "")
                                          targets bk
                           else score)
                          * (1 + (45 # 100)
                                 * (if ecw && nonempty targets
                                    then compute_category_match_score (doc_metadata doc) targets
                                    else 1))
                     else (if ecw && nonempty targets
                           then score * calculate_category_weight
                                          (Py.get_default (md_category (doc_metadata doc)) "")
                                          targets bk
                           else score))).
  { destruct (ecw && nonempty targets); cbv iota; [| exact Hs].
    apply Qmult_le_0_compat; [apply Qmult_le_0_compat; assumption | lra]. }
  apply (apply_attr_nonneg _ _ (proj1 Ha)) in H1.
  apply (apply_type_nonneg (compute_product_type_match_score (doc_metadata doc) query))
    in H1.
  destruct bk as [[| kw kws] |]; try exact H1.
  apply boost_loop_nonneg, H1.
Qed.

Lemma round4_nonneg (x : Q) : 0 <= x -> 0 <= Py.round4 x.
Proof.
  intros H. assert (E : Py.round4 0 == 0) by (vm_compute; reflexivity).
  rewrite <- E. apply round4_mono, H.
Qed.

(** X8: called with a threshold that is not negative, the single-path ranker
    reports only scores between 0 and 1. *)
Theorem semantic_score_range (vectorstore_updater : option VectorstoreUpdater)
    (query : string) (limit : Z) (score_threshold : Q) (product_only : bool)
    (boost_keywords : option (list string)) (enable_category_weight : bool)
    (l : list Result) (r : Result) :
  0 <= score_threshold ->
  semantic_search_products vectorstore_updater query limit score_threshold
    product_only boost_keywords enable_category_weight = Returned l ->
  In r l ->
  0 <= similarity_score r <= 1.
Proof.
  intros Ht H Hr.
  split; [| eapply semantic_score_at_most_one; eassumption].
  destruct (semantic_result_origin _ _ _ _ _ _ _ _ _ H Hr)
    as (u & results & doc & score & _ & _ & _ & Hscore & -> & _).
  apply round4_nonneg, py_min_glb; [| lra].
  apply semantic_final_score_nonneg. lra.
Qed.

Lemma semantic_score_range_witness :
  0 <= 2000 # 10000 <= 1.
Proof.
  apply (semantic_score_range
           (Some (Sample.store [(Sample.doc 3 "" Sample.desk, 4 # 10)]))
           "chair" 10 (3 # 10) true None true
           [Sample.hit Sample.desk (2000 # 10000)]
           (Sample.hit Sample.desk (2000 # 10000))).
  - vm_compute. discriminate.
  - vm_compute. reflexivity.
  - left. reflexivity.
Defined.

Lemma semantic_candidate_kept query t po bk ecw targets doc score r :
  semantic_candidate query t po bk ecw targets (doc, score) = Some r ->
  semantic_keeps t po ecw targets doc score = true /\ metadata r = doc_metadata doc.
Proof.
  unfold semantic_candidate.
  destruct (semantic_keeps t po ecw targets doc score); [| discriminate].
  intros H. injection H as <-. auto.
Qed.

(** Every result of the single-path ranker passed the guards of the loop. *)
Lemma semantic_result_guards vu query limit t po bk ecw l r :
  semantic_search_products vu query limit t po bk ecw = Returned l -> In r l ->
  exists doc score,
    metadata r = doc_metadata doc
    /\ semantic_keeps t po ecw
         (if ecw then infer_target_categories_from_query query else []) doc score = true.
Proof.
  intros H Hr.
  destruct (semantic_returns vu query limit t po bk ecw) as (l' & Hl & Hshape).
  assert (l' = l) by congruence. subst l'.
  destruct Hshape as [-> | (u & -> & Htry)]; [destruct Hr |].
  apply semantic_try_returned in Htry. destruct Htry as (results & Hb & ->).
  apply slice_to_incl, dedup_In, sort_desc_In, semantic_loop_In in Hr.
  destruct Hr as [[] | ([doc score] & Hds & Hc)].
  apply semantic_candidate_kept in Hc. destruct Hc as [Hk Hm].
  exists doc, score. auto.
Qed.

Lemma merge_bm25_metadata po scores docs :
  forall merged k e,
    In (k, e) (merge_bm25 po scores docs merged) ->
    (exists k0 e0, In (k0, e0) merged /\ e_metadata e = e_metadata e0)
    \/ (exists doc, In doc docs /\ bm25_takes po doc = true
                    /\ e_metadata e = doc_metadata doc).
Proof.
  induction docs as [| doc rest IH]; intros merged k e; simpl.
  - intros H. left. exists k, e. auto.
  - destruct (bm25_takes po doc) eqn:T.
    + intros H. apply IH in H.
      destruct H as [(k0 & e0 & Hin & Hm) | (d & Hd & Ht & Hm)].
      * destruct (dict_get String.eqb merged _) as [e1 |] eqn:E;
          apply (dict_set_In _ string_eqb_spec) in Hin;
          destruct Hin as [[-> ->] | Hin].
        -- left. apply (dict_get_In _ string_eqb_spec) in E. eauto.
        -- left. eauto.
        -- right. exists doc. auto.
        -- left. eauto.
      * right. exists d. auto.
    + intros H. apply IH in H.
      destruct H as [H | (d & Hd & Ht & Hm)]; [auto |]. right. exists d. auto.
Qed.

Lemma merge_vector_metadata vres :
  forall merged k e,
    In (k, e) (merge_vector vres merged) ->
    (exists k0 e0, In (k0, e0) merged /\ e_metadata e = e_metadata e0)
    \/ (exists r, In r vres /\ e_metadata e = metadata r).
Proof.
  induction vres as [| r rest IH]; intros merged k e; simpl.
  - intros H. left. exists k, e. auto.
  - destruct (Py.truthy (result_product_id r)).
    + intros H. apply IH in H.
      destruct H as [(k0 & e0 & Hin & Hm) | (r' & Hr' & Hm)].
      * destruct (dict_get String.eqb merged _) as [e1 |] eqn:E;
          apply (dict_set_In _ string_eqb_spec) in Hin;
          destruct Hin as [[-> ->] | Hin].
        -- left. apply (dict_get_In _ string_eqb_spec) in E. eauto.
        -- left. eauto.
        -- right. exists r. auto.
        -- left. eauto.
      * right. exists r'. auto.
    + intros H. apply IH in H.
      destruct H as [H | (r' & Hr' & Hm)]; [auto |]. right. exists r'. auto.
Qed.

(** The metadata of a merged entry is that of a lexical hit the loop took or
    of a vector result. *)
Lemma merged_metadata_origin po scores docs vres k e :
  In (k, e) (merge_vector vres (merge_bm25 po scores docs [])) ->
  (exists doc, In doc docs /\ bm25_takes po doc = true /\ e_metadata e = doc_metadata doc)
  \/ (exists r, In r vres /\ e_metadata e = metadata r).
Proof.
  intros H. apply merge_vector_metadata in H.
  destruct H as [(k0 & e0 & Hin & Hm) | H]; [| auto].
  apply merge_bm25_metadata in Hin.
  destruct Hin as [(k1 & e1 & [] & _) | (doc & Hd & Ht & Hm')].
  left. exists doc. split; [exact Hd |]. split; [exact Ht | congruence].
Qed.

Lemma source_of_default (src : option string) :
  String.eqb (Py.get_default src "") "product_db" = true -> src = Some "product_db".
Proof.
  destruct src as [s |]; simpl; [| discriminate].
  intros H. apply String.eqb_eq in H. congruence.
Qed.

(** X9: with [product_only] set, every result of either ranker, on the
    fusion path and on the fallback path alike, carries the source tag
    "product_db". *)
Theorem product_only_source (langchain_community : option BM25Retriever)
    (vectorstore_updater : option VectorstoreUpdater) (query : string) (limit : Z)
    (score_threshold : Q) (boost_keywords : option (list string))
    (bm25_weight vector_weight : Q) (enable_category_weight : bool)
    (l : list Result) (r : Result) :
  semantic_search_products vectorstore_updater query limit score_threshold
    true boost_keywords enable_category_weight = Returned l
  \/ hybrid_search_products langchain_community vectorstore_updater query limit
       score_threshold true bm25_weight vector_weight
       enable_category_weight = Returned l ->
  In r l ->
  md_source (metadata r) = Some "product_db".
Proof.
  assert (Hsem : forall lim bk l' r',
             semantic_search_products vectorstore_updater query lim score_threshold
               true bk enable_category_weight = Returned l' ->
             In r' l' -> md_source (metadata r') = Some "product_db").
  { intros lim bk l' r' H Hr'.
    destruct (semantic_result_guards _ _ _ _ _ _ _ _ _ H Hr') as (doc & score & -> & Hk).
    unfold semantic_keeps in Hk.
    repeat (apply andb_true_iff in Hk; destruct Hk as [Hk ?]).
    match goal with
    | H : negb (true && negb (String.eqb _ _)) = true |- _ =>
      simpl in H; rewrite negb_involutive in H; apply source_of_default in H; exact H
    end. }
  intros [H | H] Hr; [eapply Hsem; eassumption |].
  destruct (hybrid_returns langchain_community vectorstore_updater query limit
              score_threshold true bm25_weight vector_weight
              enable_category_weight) as (l0 & Hl & Hshape).
  assert (l0 = l) by congruence. subst l0.
  destruct Hshape as [-> | [(u & -> & Htry) | Hfallback]].
  - destruct Hr.
  - apply hybrid_try_returned in Htry. destruct Htry as (raw & vres & Hv & ->).
    apply slice_to_incl, sort_desc_In, score_merged_In in Hr.
    destruct Hr as (k & data & Hin & -> & _). simpl.
    apply merged_metadata_origin in Hin.
    destruct Hin as [(doc & _ & Ht & ->) | (vr & Hvr & ->)].
    + unfold bm25_takes in Ht. apply andb_true_iff in Ht. destruct Ht as [Ht _].
      simpl in Ht. rewrite negb_involutive in Ht.
      destruct (md_source (doc_metadata doc)) as [s |]; simpl in Ht; [| discriminate].
      apply String.eqb_eq in Ht. congruence.
    + apply slice_to_incl in Hvr. eapply Hsem; eassumption.
  - eapply Hsem; eassumption.
Qed.

Lemma product_only_source_witness :
  md_source (metadata (Sample.fused Sample.stand (6675 # 10000) (10000 # 10000) (0 # 10000)))
  = Some "product_db".
Proof.
  apply (product_only_source
           (Some (Sample.lexical [Sample.doc 4 "stand" Sample.stand]))
           (Some (Sample.store_with [(Sample.doc 4 "stand" Sample.stand, 1 # 10)] []))
           "speaker" 10 (2 # 10) None (4 # 10) (6 # 10) true
           [Sample.fused Sample.stand (6675 # 10000) (10000 # 10000) (0 # 10000)]).
  - right. vm_compute. reflexivity.
  - left. reflexivity.
Defined.

(** X10: every result of either ranker passes the category pre-filter for
    the categories inferred from the query (none when category weighting is
    off), and its category match score is at least 1/4. *)
Theorem results_match_target_categories (langchain_community : option BM25Retriever)
    (vectorstore_updater : option VectorstoreUpdater) (query : string) (limit : Z)
    (score_threshold : Q) (product_only : bool) (boost_keywords : option (list string))
    (bm25_weight vector_weight : Q) (enable_category_weight : bool)
    (l : list Result) (r : Result) :
  semantic_search_products vectorstore_updater query limit score_threshold
    product_only boost_keywords enable_category_weight = Returned l
  \/ hybrid_search_products langchain_community vectorstore_updater query limit
       score_threshold product_only bm25_weight vector_weight
       enable_category_weight = Returned l ->
  In r l ->
  let targets :=
    if enable_category_weight then infer_target_categories_from_query query else [] in
  is_product_matching_categories (metadata r) targets = true
  /\ 1 # 4 <= compute_category_match_score (metadata r) targets.
Proof.
  intros H Hr targets.
  assert (Hmatch : is_product_matching_categories (metadata r) targets = true).
  { assert (Hsem : forall bk l' r',
               semantic_search_products vectorstore_updater query limit score_threshold
                 product_only bk enable_category_weight = Returned l' ->
               In r' l' -> is_product_matching_categories (metadata r') targets = true).
    { intros bk l' r' H' Hr'.
      destruct (semantic_result_guards _ _ _ _ _ _ _ _ _ H' Hr') as (doc & score & -> & Hk).
      fold targets in Hk. unfold semantic_keeps in Hk.
      repeat (apply andb_true_iff in Hk; destruct Hk as [Hk ?]).
      match goal with
      | H : negb (_ && _ && negb (is_product_matching_categories _ _)) = true |- _ =>
        destruct (is_product_matching_categories (doc_metadata doc) targets) eqn:M;
          [reflexivity |]
      end.
      subst targets. destruct enable_category_weight; [| discriminate].
      destruct (infer_target_categories_from_query query); [discriminate |].
      simpl in *. discriminate. }
    destruct H as [H | H]; [eapply Hsem; eassumption |].
    destruct (hybrid_returns langchain_community vectorstore_updater query limit
                score_threshold product_only bm25_weight vector_weight
                enable_category_weight) as (l0 & Hl & Hshape).
    assert (l0 = l) by congruence. subst l0.
    destruct Hshape as [-> | [(u & -> & Htry) | Hfallback]].
    - destruct Hr.
    - apply hybrid_try_returned in Htry. destruct Htry as (raw & vres & Hv & ->).
      apply slice_to_incl, sort_desc_In, score_merged_In in Hr.
      destruct Hr as (k & data & Hin & -> & Hk & _). simpl. fold targets in Hk.
      unfold hybrid_keeps in Hk.
      destruct targets; [reflexivity |].
      apply andb_true_iff in Hk. apply Hk.
    - eapply Hsem; eassumption. }
  split; [exact Hmatch | apply matching_score_quarter, Hmatch].
Qed.

Lemma results_match_target_categories_witness :
  is_product_matching_categories Sample.stand (infer_target_categories_from_query "speaker")
  = true
  /\ 1 # 4 <= compute_category_match_score Sample.stand
                (infer_target_categories_from_query "speaker").
Proof.
  apply (results_match_target_categories
           (Some (Sample.lexical [Sample.doc 4 "stand" Sample.stand]))
           (Some (Sample.store_with [(Sample.doc 4 "stand" Sample.stand, 1 # 10)] []))
           "speaker" 10 (2 # 10) true None (4 # 10) (6 # 10) true
           [Sample.fused Sample.stand (6675 # 10000) (10000 # 10000) (0 # 10000)]
           (Sample.fused Sample.stand (6675 # 10000) (10000 # 10000) (0 # 10000))).
  - right. vm_compute. reflexivity.
  - left. reflexivity.
Defined.

(** ** The rank scores of the lexical path *)

Lemma nat_eqb_spec (x y : nat) : Nat.eqb x y = true <-> x = y.
Proof. apply Nat.eqb_eq. Qed.

Lemma rank_scores_values (n : nat) (raw : list Document) :
  forall i d k v,
    (forall k' v', dict_get Nat.eqb d k' = Some v' ->
                   exists j, (j < i)%nat
                             /\ v' = 1 - inject_Z (Z.of_nat j) / inject_Z (Z.of_nat (n + 1))) ->
    dict_get Nat.eqb (rank_scores n i raw d) k = Some v ->
    exists j, (j < i + List.length raw)%nat
              /\ v = 1 - inject_Z (Z.of_nat j) / inject_Z (Z.of_nat (n + 1)).
Proof.
  induction raw as [| doc rest IH]; intros i d k v Hd; simpl.
  - intros H. destruct (Hd _ _ H) as (j & Hj & ->). exists j. split; [lia | reflexivity].
  - intros H. apply IH in H.
    + destruct H as (j & Hj & ->). exists j. split; [lia | reflexivity].
    + intros k' v' Hk'. rewrite (dict_get_set _ nat_eqb_spec) in Hk'.
      destruct (Nat.eqb k' (obj_id doc)).
      * injection Hk' as <-. exists i. split; [lia | reflexivity].
      * destruct (Hd _ _ Hk') as (j & Hj & ->). exists j. split; [lia | reflexivity].
Qed.

Lemma rank_scores_absent (n : nat) (raw : list Document) :
  forall i d k,
    ~ In k (map obj_id raw) ->
    dict_get Nat.eqb (rank_scores n i raw d) k = dict_get Nat.eqb d k.
Proof.
  induction raw as [| doc rest IH]; intros i d k Hk; simpl; [reflexivity |].
  rewrite IH by (intros H; apply Hk; right; exact H).
  rewrite (dict_get_set _ nat_eqb_spec).
  destruct (Nat.eqb k (obj_id doc)) eqn:E; [| reflexivity].
  apply Nat.eqb_eq in E. exfalso. apply Hk. left. auto.
Qed.

Lemma rank_scores_present (n : nat) (raw : list Document) :
  forall i d k,
    In k (map obj_id raw) -> dict_get Nat.eqb (rank_scores n i raw d) k <> None.
Proof.
  induction raw as [| doc rest IH]; intros i d k; simpl; [tauto |].
  intros [<- | Hk].
  - destruct (in_dec Nat.eq_dec (obj_id doc) (map obj_id rest)) as [Hin | Hnot].
    + apply IH, Hin.
    + rewrite rank_scores_absent by exact Hnot.
      rewrite (dict_get_set _ nat_eqb_spec), Nat.eqb_refl. discriminate.
  - apply IH, Hk.
Qed.

Lemma rank_scores_nth (n : nat) (raw : list Document) :
  NoDup (map obj_id raw) ->
  forall i d j doc,
    nth_error raw j = Some doc ->
    dict_get Nat.eqb (rank_scores n i raw d) (obj_id doc)
    = Some (1 - inject_Z (Z.of_nat (i + j)) / inject_Z (Z.of_nat (n + 1))).
Proof.
  induction raw as [| doc0 rest IH]; intros Hnd i d j doc; simpl.
  - destruct j; discriminate.
  - inversion Hnd as [| ? ? Hnotin Hnd']; subst.
    destruct j as [| j]; simpl.
    + intros H. injection H as <-.
      rewrite rank_scores_absent by exact Hnotin.
      rewrite (dict_get_set _ nat_eqb_spec), Nat.eqb_refl, Nat.add_0_r. reflexivity.
    + intros H. rewrite (IH Hnd' (S i) _ j doc H).
      replace (S i + j)%nat with (i + S j)%nat by lia. reflexivity.
Qed.

Lemma rank_value_range (n j : nat) :
  (j < n)%nat ->
  0 < 1 - inject_Z (Z.of_nat j) / inject_Z (Z.of_nat (n + 1)) <= 1.
Proof.
  intros Hj.
  assert (Hq : 0 < inject_Z (Z.of_nat (n + 1))).
  { replace 0 with (inject_Z 0) by reflexivity. rewrite <- Zlt_Qlt. lia. }
  destruct (nat_ratio_bounds j (n + 1)) as (H0 & _ & _); [lia |].
  assert (H1 : inject_Z (Z.of_nat j) / inject_Z (Z.of_nat (n + 1)) < 1).
  { apply Qlt_shift_div_r; [exact Hq |]. rewrite Qmult_1_l. rewrite <- Zlt_Qlt. lia. }
  lra.
Qed.

(** X11: the rank score [bm25_scores] holds for a lexical hit lies in (0, 1]
    and a document the retriever did not return scores 0; when the returned
    objects are pairwise distinct, the hit of rank [i] (from 0) among [n]
    scores exactly [1 - i / (n + 1)], so the first hit scores 1. *)
Theorem lexical_rank_scores (bm25_results_raw : list Document) :
  let n := List.length bm25_results_raw in
  let bm25_scores := bm25_scores_of bm25_results_raw in
  (forall doc,
      In doc bm25_results_raw ->
      0 < bm25_lookup bm25_scores doc /\ bm25_lookup bm25_scores doc <= 1)
  /\ (forall doc,
         ~ In (obj_id doc) (map obj_id bm25_results_raw) ->
         bm25_lookup bm25_scores doc = 0)
  /\ (NoDup (map obj_id bm25_results_raw) ->
      forall i doc,
        nth_error bm25_results_raw i = Some doc ->
        bm25_lookup bm25_scores doc
        = 1 - inject_Z (Z.of_nat i) / inject_Z (Z.of_nat (n + 1))).
Proof.
  intros n bm25_scores. subst n bm25_scores. unfold bm25_lookup, bm25_scores_of.
  split; [| split].
  - intros doc Hin.
    destruct (dict_get Nat.eqb _ (obj_id doc)) as [v |] eqn:E.
    + apply rank_scores_values in E; [| intros k' v' H'; discriminate].
      destruct E as (j & Hj & ->). apply rank_value_range. simpl in Hj. exact Hj.
    + exfalso. revert E. apply rank_scores_present. apply in_map, Hin.
  - intros doc Hnot. rewrite rank_scores_absent by exact Hnot. reflexivity.
  - intros Hnd i doc Hnth. rewrite (rank_scores_nth _ _ Hnd 0%nat [] i doc Hnth).
    reflexivity.
Qed.

Lemma lexical_rank_scores_witness :
  bm25_lookup (bm25_scores_of Sample.shelf) (Sample.doc 2 "earbuds" Sample.earbuds)
  = 1 - inject_Z (Z.of_nat 1) / inject_Z (Z.of_nat (List.length Sample.shelf + 1)).
Proof.
  refine (proj2 (proj2 (lexical_rank_scores Sample.shelf)) _ 1%nat _ _).
  - repeat constructor; simpl; intuition discriminate.
  - reflexivity.
Defined.

(** ** The collecting loop and the post-processing *)

Lemma semantic_loop_bound query limit t po bk ecw targets results :
  forall output,
    (Z.of_nat (List.length output) < limit)%Z ->
    (Z.of_nat (List.length (semantic_loop query limit t po bk ecw targets results output))
     <= limit)%Z.
Proof.
  induction results as [| ds rest IH]; intros output Hlen; simpl; [lia |].
  destruct (semantic_candidate query t po bk ecw targets ds) as [r |]; [| apply IH, Hlen].
  destruct (limit <=? Z.of_nat (List.length (output ++ [r])))%Z eqn:E.
  - rewrite length_app. simpl. lia.
  - apply IH. apply Z.leb_gt in E. exact E.
Qed.

(** X12: for a positive limit the collecting loop of the single-path ranker
    stops at [limit] candidates, repeated hits of one product included, so
    the final slice [[:limit]] removes nothing: the truncation happens before
    the deduplication, not after it. *)
Theorem semantic_truncates_before_dedup (query : string) (limit : Z) (score_threshold : Q)
    (product_only : bool) (boost_keywords : option (list string))
    (enable_category_weight : bool) (target_categories : list string)
    (results : list (Document * Q)) :
  (0 < limit)%Z ->
  let output :=
    semantic_loop query limit score_threshold product_only boost_keywords
      enable_category_weight target_categories results [] in
  (Z.of_nat (List.length output) <= limit)%Z
  /\ Py.slice_to (dedup [] (sort_desc output)) limit = dedup [] (sort_desc output).
Proof.
  intros Hlimit output.
  assert (Hlen : (Z.of_nat (List.length output) <= limit)%Z)
    by (apply semantic_loop_bound; simpl; lia).
  split; [exact Hlen |].
  unfold Py.slice_to. destruct (0 <=? limit)%Z eqn:E; [| apply Z.leb_gt in E; lia].
  apply firstn_all2.
  pose proof (dedup_length [] (sort_desc output)). rewrite sort_desc_length in H. lia.
Qed.

Lemma semantic_truncates_before_dedup_witness :
  (Z.of_nat
     (List.length
        (semantic_loop "speaker" 2 (2 # 10) true None true ["音頻設備"]
           [(Sample.doc 1 "speaker" Sample.speaker, 85 # 100);
            (Sample.doc 6 "speaker again" Sample.speaker, 80 # 100);
            (Sample.doc 2 "earbuds" Sample.earbuds, 75 # 100)] [])) <= 2)%Z.
Proof.
  apply (semantic_truncates_before_dedup "speaker" 2 (2 # 10) true None true ["音頻設備"]
           [(Sample.doc 1 "speaker" Sample.speaker, 85 # 100);
            (Sample.doc 6 "speaker again" Sample.speaker, 80 # 100);
            (Sample.doc 2 "earbuds" Sample.earbuds, 75 # 100)]).
  lia.
Defined.

Lemma dedup_idem (l : list Result) :
  forall seen, dedup seen (dedup seen l) = dedup seen l.
Proof.
  induction l as [| x l IH]; intros seen; simpl; [reflexivity |].
  destruct (Py.truthy (result_product_id x)) eqn:Tx; simpl.
  - destruct (Py.mem (result_product_id x) seen) eqn:Mx; simpl; [apply IH |].
    rewrite Tx, Mx. simpl. f_equal. apply IH.
  - rewrite Tx. simpl. f_equal. apply IH.
Qed.

Lemma insert_desc_head (x : Result) (l : list Result) :
  Forall (score_ge x) l -> insert_desc x l = x :: l.
Proof.
  intros H. destruct l as [| y l]; simpl; [reflexivity |].
  inversion H as [| ? ? Hy _]; subst.
  destruct (Py.ltb (similarity_score x) (similarity_score y)) eqn:E; [| reflexivity].
  apply ltb_lt in E. unfold score_ge in Hy. lra.
Qed.

Lemma sort_desc_sorted_id (l : list Result) :
  StronglySorted score_ge l -> sort_desc l = l.
Proof.
  induction 1 as [| x l Hs IH Hall]; simpl; [reflexivity |].
  rewrite IH. apply insert_desc_head, Hall.
Qed.

(** X13: sorting and deduplicating are stable under repetition: a list that
    is already in descending order is left exactly as it is by the sort,
    ties included, and running the sort or the deduplication a second time
    changes nothing. *)
Theorem postprocessing_idempotent (l : list Result) :
  (StronglySorted score_ge l -> sort_desc l = l)
  /\ sort_desc (sort_desc l) = sort_desc l
  /\ dedup [] (dedup [] l) = dedup [] l
  /\ sort_desc (dedup [] (sort_desc l)) = dedup [] (sort_desc l).
Proof.
  split; [apply sort_desc_sorted_id |].
  split; [apply sort_desc_sorted_id, sort_desc_sorted |].
  split; [apply dedup_idem |].
  apply sort_desc_sorted_id, dedup_sorted, sort_desc_sorted.
Qed.

Lemma postprocessing_idempotent_witness :
  sort_desc [Sample.hit Sample.speaker (9 # 10); Sample.hit Sample.desk (9 # 10)]
  = [Sample.hit Sample.speaker (9 # 10); Sample.hit Sample.desk (9 # 10)].
Proof.
  refine (proj1 (postprocessing_idempotent
                   [Sample.hit Sample.speaker (9 # 10); Sample.hit Sample.desk (9 # 10)])
                _).
  repeat constructor; unfold score_ge; simpl; lra.
Defined.

(** ** Degradation to the single-path ranker *)

(** X14: whenever the lexical path cannot be used (the retriever class cannot
    be imported, no document could be gathered for its index, building the
    index raises, or its query raises), [hybrid_search_products] returns
    exactly what [semantic_search_products] returns for the same arguments
    without boost keywords. *)
Theorem lexical_path_unavailable (langchain_community : option BM25Retriever)
    (u : VectorstoreUpdater) (query : string) (limit : Z) (score_threshold : Q)
    (product_only : bool) (bm25_weight vector_weight : Q)
    (enable_category_weight : bool) :
  langchain_community = None
  \/ all_docs_truthy (gather_all_docs (vectorstore u)) = false
  \/ (exists BM25 e,
         langchain_community = Some BM25
         /\ from_documents BM25 (gather_all_docs (vectorstore u)) = Raised e)
  \/ (exists BM25 bm25_retriever e,
         langchain_community = Some BM25
         /\ from_documents BM25 (gather_all_docs (vectorstore u)) = Returned bm25_retriever
         /\ invoke bm25_retriever query (limit * 3)%Z = Raised e) ->
  hybrid_search_products langchain_community (Some u) query limit score_threshold
    product_only bm25_weight vector_weight enable_category_weight
  = semantic_search_products (Some u) query limit score_threshold product_only None
      enable_category_weight.
Proof.
  intros H.
  assert (Hraise : exists e,
             hybrid_try langchain_community u query limit score_threshold product_only
               bm25_weight vector_weight enable_category_weight = Raised e).
  { destruct (semantic_returns (Some u) query (limit * 3)%Z score_threshold product_only
                None enable_category_weight) as (vres & Hv & _).
    unfold hybrid_try, bind.
    destruct langchain_community as [BM25 |]; [| exists ImportError; reflexivity].
    destruct (all_docs_truthy (gather_all_docs (vectorstore u))) eqn:T.
    - destruct H as [H | [H | [(B & e & HB & Hf) | (B & retr & e & HB & Hf & Hi)]]];
        try discriminate.
      + injection HB as <-. rewrite Hf. exists e. reflexivity.
      + injection HB as <-. rewrite Hf, Hi. exists e. reflexivity.
    - rewrite Hv. exists NameError. reflexivity. }
  destruct Hraise as (e & He). eapply hybrid_fallback. exact He.
Qed.

Lemma lexical_path_unavailable_witness :
  hybrid_search_products None
    (Some (Sample.store [(Sample.doc 1 "speaker" Sample.speaker, 85 # 100)]))
    "speaker" 10 (2 # 10) true (4 # 10) (6 # 10) true
  = semantic_search_products
      (Some (Sample.store [(Sample.doc 1 "speaker" Sample.speaker, 85 # 100)]))
      "speaker" 10 (2 # 10) true None true.
Proof.
  apply (lexical_path_unavailable None
           (Sample.store [(Sample.doc 1 "speaker" Sample.speaker, 85 # 100)])
           "speaker" 10 (2 # 10) true (4 # 10) (6 # 10) true).
  left. reflexivity.
Defined.

(** ** The combined context *)

Lemma str_app_assoc (a b c : string) : ((a ++ b) ++ c = a ++ b ++ c)%string.
Proof. induction a as [| ch a IH]; simpl; [reflexivity | rewrite IH; reflexivity]. Qed.

Lemma str_app_empty_r (a : string) : (a ++ "" = a)%string.
Proof. induction a as [| ch a IH]; simpl; [reflexivity | rewrite IH; reflexivity]. Qed.

Lemma join_cons (sep x : string) (xs : list string) :
  xs <> [] -> Py.join sep (x :: xs) = (x ++ sep ++ Py.join sep xs)%string.
Proof. destruct xs; [congruence | reflexivity]. Qed.

Lemma join_app (sep : string) (xs ys : list string) :
  xs <> [] -> ys <> [] ->
  Py.join sep (xs ++ ys) = (Py.join sep xs ++ sep ++ Py.join sep ys)%string.
Proof.
  intros Hx Hy. induction xs as [| x xs IH]; [congruence |].
  destruct xs as [| x' xs].
  - simpl app. rewrite join_cons by exact Hy. reflexivity.
  - change ((x :: x' :: xs) ++ ys)%list with (x :: ((x' :: xs) ++ ys))%list.
    rewrite join_cons by discriminate. rewrite IH by discriminate.
    rewrite (join_cons sep x (x' :: xs)) by discriminate.
    rewrite !str_app_assoc. reflexivity.
Qed.

Lemma doc_text_truthy (d : DocLike) (s : string) :
  In s (doc_text d) -> Py.truthy s = true.
Proof.
  unfold doc_text.
  destruct (match d with LikeDocument t => t | LikeDict t c => opt_or t c | LikeOther => None end)
    as [t |]; [| intros []].
  destruct (Py.truthy t) eqn:E; [| intros []].
  intros [<- | []]. exact E.
Qed.

Lemma join_truthy (sep : string) (xs : list string) :
  xs <> [] -> (forall s, In s xs -> Py.truthy s = true) ->
  Py.truthy (Py.join sep xs) = true.
Proof.
  intros Hne Hall. destruct xs as [| x xs]; [congruence |].
  assert (Hx : Py.truthy x = true) by (apply Hall; left; reflexivity).
  destruct xs as [| y ys]; [exact Hx |].
  rewrite join_cons by discriminate. destruct x; [discriminate | reflexivity].
Qed.

Lemma truthy_false (s : string) : Py.truthy s = false -> s = "".
Proof. destruct s; [reflexivity | discriminate]. Qed.

Lemma combine_as_join (docs : list DocLike) :
  combine_documents_content docs = Py.join doc_separator (flat_map doc_text docs).
Proof. destruct docs; reflexivity. Qed.

Lemma combine_empty_iff (docs : list DocLike) :
  combine_documents_content docs = "" <-> flat_map doc_text docs = [].
Proof.
  rewrite combine_as_join. split; [| intros ->; reflexivity].
  intros H. destruct (flat_map doc_text docs) as [| x xs] eqn:E; [reflexivity |].
  assert (Ht : Py.truthy (Py.join doc_separator (x :: xs)) = true).
  { apply join_truthy; [discriminate |]. intros s Hs. rewrite <- E in Hs.
    apply in_flat_map in Hs. destruct Hs as (d & _ & Hd). eapply doc_text_truthy, Hd. }
  rewrite H in Ht. discriminate.
Qed.

(** X15: [combine_documents_content] is empty exactly when no element carries
    a non-empty text, elements without text leave no trace (no doubled
    separator), and the context of two lists put together is the two contexts
    joined by the separator line, or just the one that is not empty. *)
Theorem combined_context_composes (docs1 docs2 : list DocLike) :
  (combine_documents_content docs1 = ""
   <-> forall d, In d docs1 -> doc_text d = [])
  /\ combine_documents_content (docs1 ++ docs2)
     = if negb (Py.truthy (combine_documents_content docs1))
       then combine_documents_content docs2
       else if negb (Py.truthy (combine_documents_content docs2))
            then combine_documents_content docs1
            else (combine_documents_content docs1 ++ doc_separator
                  ++ combine_documents_content docs2)%string.
Proof.
  split.
  - rewrite combine_empty_iff. split.
    + intros H d Hd. destruct (doc_text d) as [| s l] eqn:E; [reflexivity |].
      assert (Hin : In s (flat_map doc_text docs1))
        by (apply in_flat_map; exists d; split; [exact Hd | rewrite E; left; reflexivity]).
      rewrite H in Hin. destruct Hin.
    + intros H. induction docs1 as [| d rest IH]; [reflexivity |].
      simpl. rewrite (H d (or_introl eq_refl)). simpl.
      apply IH. intros d' Hd'. apply H. right. exact Hd'.
  - pose proof (combine_empty_iff docs1) as E1.
    pose proof (combine_empty_iff docs2) as E2.
    rewrite (combine_as_join (docs1 ++ docs2)), flat_map_app.
    destruct (flat_map doc_text docs1) as [| x xs] eqn:F1.
    + rewrite (proj2 E1 eq_refl). simpl. apply eq_sym, combine_as_join.
    + assert (T1 : Py.truthy (combine_documents_content docs1) = true).
      { destruct (Py.truthy (combine_documents_content docs1)) eqn:C; [reflexivity |].
        apply truthy_false, E1 in C. discriminate. }
      rewrite T1. simpl negb. cbv iota.
      destruct (flat_map doc_text docs2) as [| y ys] eqn:F2.
      * rewrite (proj2 E2 eq_refl). simpl negb. cbv iota.
        rewrite app_nil_r, combine_as_join, F1. reflexivity.
      * assert (T2 : Py.truthy (combine_documents_content docs2) = true).
        { destruct (Py.truthy (combine_documents_content docs2)) eqn:C; [reflexivity |].
          apply truthy_false, E2 in C. discriminate. }
        rewrite T2. simpl negb. cbv iota.
        rewrite join_app by discriminate.
        rewrite !combine_as_join, F1, F2. reflexivity.
Qed.

(** ** Ties, monotonicity and the keyword boost *)

Lemma insert_desc_same_score (s : Q) (x : Result) (l : list Result) :
  filter (same_score s) (insert_desc x l) = filter (same_score s) (x :: l).
Proof.
  induction l as [| y l IH]; [reflexivity |].
  simpl insert_desc.
  destruct (Py.ltb (similarity_score x) (similarity_score y)) eqn:E; [| reflexivity].
  apply ltb_lt in E.
  change (filter (same_score s) (y :: insert_desc x l))
    with (if same_score s y then y :: filter (same_score s) (insert_desc x l)
          else filter (same_score s) (insert_desc x l)).
  rewrite IH. simpl.
  destruct (same_score s x) eqn:Sx; destruct (same_score s y) eqn:Sy; try reflexivity.
  unfold same_score in Sx, Sy. apply Qeq_bool_iff in Sx, Sy. lra.
Qed.

(** X16: the descending sort is stable: the results that share a score come
    out in the order in which they went in, so ties are broken by the order
    of collection (lexical entries before vector-only entries in the fusion
    ranker). *)
Theorem sort_is_stable (s : Q) (l : list Result) :
  filter (same_score s) (sort_desc l) = filter (same_score s) l.
Proof.
  induction l as [| x l IH]; [reflexivity |].
  simpl sort_desc. rewrite insert_desc_same_score. simpl. rewrite IH. reflexivity.
Qed.

Lemma py_min_mono (a b c : Q) : a <= b -> Py.min a c <= Py.min b c.
Proof.
  intros H. apply py_min_glb.
  - pose proof (py_min_le_l a c). lra.
  - apply py_min_le_r.
Qed.

Lemma boost_loop_mono (boost_keywords : list string) (content_lower : string) :
  forall s1 s2,
    s1 <= s2 ->
    boost_loop boost_keywords content_lower s1 <= boost_loop boost_keywords content_lower s2.
Proof.
  induction boost_keywords as [| kw rest IH]; intros s1 s2 H; simpl; [exact H |].
  apply IH. destruct (keyword_in content_lower kw); [| exact H].
  apply py_min_mono. lra.
Qed.

Lemma apply_attr_mono (attr_score s1 s2 : Q) :
  0 <= attr_score -> s1 <= s2 ->
  apply_attr_score attr_score s1 <= apply_attr_score attr_score s2.
Proof.
  intros Ha H. unfold apply_attr_score. destruct (Py.gtb _ _); [| exact H].
  apply Qmult_le_compat_r; lra.
Qed.

Lemma apply_type_mono (type_score s1 s2 : Q) :
  s1 <= s2 -> apply_type_score type_score s1 <= apply_type_score type_score s2.
Proof.
  intros H. unfold apply_type_score.
  destruct (Py.geb _ _); [lra |]. destruct (Py.ltb _ _); lra.
Qed.

Lemma semantic_final_score_mono query bk ecw targets doc s1 s2 :
  s1 <= s2 ->
  semantic_final_score query bk ecw targets doc s1
  <= semantic_final_score query bk ecw targets doc s2.
Proof.
  intros H. unfold semantic_final_score.
  pose proof (category_weight_nonneg
                (Py.get_default (md_category (doc_metadata doc)) "") targets bk) as Hw.
  pose proof (category_match_score_bounds (doc_metadata doc) targets) as Hm.
  pose proof (attribute_score_bounds (doc_metadata doc) query) as Ha.
  set (w := calculate_category_weight _ targets bk) in *.
  set (m := compute_category_match_score (doc_metadata doc) targets) in *.
  assert (H1 : (if ecw && nonempty targets
                then (if ecw && nonempty targets then s1 * w else s1)
                     * (1 + (45 # 100) * (if ecw && nonempty targets then m else 1))
                else (if ecw && nonempty targets then s1 * w else s1))
               <= (if ecw && nonempty targets
                   then (if ecw && nonempty targets then s2 * w else s2)
                        * (1 + (45 # 100) * (if ecw && nonempty targets then m else 1))
                   else (if ecw && nonempty targets then s2 * w else s2))).
  { destruct (ecw && nonempty targets); cbv iota; [| exact H].
    apply Qmult_le_compat_r; [| lra]. apply Qmult_le_compat_r; assumption. }
  apply (apply_attr_mono _ _ _ (proj1 Ha)) in H1.
  apply (apply_type_mono (compute_product_type_match_score (doc_metadata doc) query))
    in H1.
  destruct bk as [[| kw kws] |]; try exact H1.
  apply boost_loop_mono, H1.
Qed.

Lemma hybrid_final_score_mono query bw vw targets e1 e2 :
  e_metadata e1 = e_metadata e2 ->
  fused_score bw vw e1 <= fused_score bw vw e2 ->
  hybrid_final_score query bw vw targets e1 <= hybrid_final_score query bw vw targets e2.
Proof.
  intros Hmeta H. unfold hybrid_final_score. rewrite Hmeta.
  pose proof (category_match_score_bounds (e_metadata e2) targets) as Hm.
  pose proof (attribute_score_bounds (e_metadata e2) query) as Ha.
  apply apply_type_mono, apply_attr_mono; [apply Ha |].
  destruct targets; [exact H |]. apply Qmult_le_compat_r; lra.
Qed.

(** X17: the rankers are monotone in the retrieval scores: for one document
    and one query, a higher raw similarity never gives a lower reported score
    in the single-path ranker; and in the fusion ranker, with weights that
    are not negative, an entry with the higher lexical and the higher vector
    component (same metadata) never gets the lower score. *)
Theorem scores_are_monotone (query : string) (boost_keywords : option (list string))
    (enable_category_weight : bool) (target_categories : list string)
    (doc : Document) (score1 score2 : Q)
    (bm25_weight vector_weight : Q) (data1 data2 : Entry) :
  (score1 <= score2 ->
   Py.round4 (Py.min (semantic_final_score query boost_keywords enable_category_weight
                        target_categories doc score1) 1)
   <= Py.round4 (Py.min (semantic_final_score query boost_keywords enable_category_weight
                           target_categories doc score2) 1))
  /\ (0 <= bm25_weight -> 0 <= vector_weight ->
      e_metadata data1 = e_metadata data2 ->
      bm25_score data1 <= bm25_score data2 ->
      vector_score data1 <= vector_score data2 ->
      Py.round4 (hybrid_final_score query bm25_weight vector_weight target_categories data1)
      <= Py.round4 (hybrid_final_score query bm25_weight vector_weight target_categories
                      data2)).
Proof.
  split.
  - intros H. apply round4_mono, py_min_mono, semantic_final_score_mono, H.
  - intros Hb Hv Hmeta H1 H2. apply round4_mono, hybrid_final_score_mono; [exact Hmeta |].
    unfold fused_score.
    assert (bm25_score data1 * bm25_weight <= bm25_score data2 * bm25_weight)
      by (apply Qmult_le_compat_r; assumption).
    assert (vector_score data1 * vector_weight <= vector_score data2 * vector_weight)
      by (apply Qmult_le_compat_r; assumption).
    lra.
Qed.

Lemma scores_are_monotone_witness :
  Py.round4 (Py.min (semantic_final_score "speaker" None true ["音頻設備"]
                       (Sample.doc 1 "speaker" Sample.speaker) (3 # 10)) 1)
  <= Py.round4 (Py.min (semantic_final_score "speaker" None true ["音頻設備"]
                          (Sample.doc 1 "speaker" Sample.speaker) (4 # 10)) 1).
Proof.
  refine (proj1 (scores_are_monotone "speaker" None true ["音頻設備"]
                   (Sample.doc 1 "speaker" Sample.speaker) (3 # 10) (4 # 10)
                   (4 # 10) (6 # 10)
                   (mkEntry "" "" "" 0 0 Sample.speaker)
                   (mkEntry "" "" "" 0 0 Sample.speaker)) _).
  vm_compute. discriminate.
Defined.

Lemma boost_loop_raises_capped (boost_keywords : list string) (content_lower : string) :
  forall x s,
    0 <= s -> Py.min x 1 <= Py.min s 1 ->
    Py.min x 1 <= Py.min (boost_loop boost_keywords content_lower s) 1.
Proof.
  induction boost_keywords as [| kw rest IH]; intros x s Hs H; simpl; [exact H |].
  destruct (keyword_in content_lower kw); [| apply IH; assumption].
  apply IH.
  - apply py_min_glb; lra.
  - pose proof (py_min_le_r x 1) as Hx1. pose proof (py_min_le_l s 1) as Hs1.
    apply py_min_glb; [| exact Hx1].
    apply py_min_glb; [lra | exact Hx1].
Qed.

(** X18: boost keywords never lower what the single-path ranker reports for
    a hit whose raw similarity is not negative: the reported score with any
    list of boost keywords is at least the reported score without them. *)
Theorem boost_never_lowers (query : string) (boost_keywords : option (list string))
    (enable_category_weight : bool) (target_categories : list string)
    (doc : Document) (score : Q) :
  0 <= score ->
  Py.round4 (Py.min (semantic_final_score query None enable_category_weight
                       target_categories doc score) 1)
  <= Py.round4 (Py.min (semantic_final_score query boost_keywords enable_category_weight
                          target_categories doc score) 1).
Proof.
  intros Hs. apply round4_mono.
  pose proof (semantic_final_score_nonneg query None enable_category_weight
                target_categories doc score Hs) as Hpos.
  assert (Hw : calculate_category_weight
                 (Py.get_default (md_category (doc_metadata doc)) "") target_categories
                 boost_keywords
               = calculate_category_weight
                   (Py.get_default (md_category (doc_metadata doc)) "") target_categories
                   None) by reflexivity.
  unfold semantic_final_score in *. rewrite Hw.
  destruct boost_keywords as [[| kw kws] |]; try lra.
  apply boost_loop_raises_capped; [exact Hpos | lra].
Qed.

Lemma boost_never_lowers_witness :
  Py.round4 (Py.min (semantic_final_score "xyz" None true []
                       (Sample.doc 1 "alpha beta" Sample.desk) (4 # 10)) 1)
  <= Py.round4 (Py.min (semantic_final_score "xyz" (Some ["alpha"; "beta"]) true []
                          (Sample.doc 1 "alpha beta" Sample.desk) (4 # 10)) 1).
Proof.
  apply (boost_never_lowers "xyz" (Some ["alpha"; "beta"]) true []
           (Sample.doc 1 "alpha beta" Sample.desk) (4 # 10)).
  vm_compute. discriminate.
Defined.

(** ** The fused base score, through the entry point *)

(** The entry of an item after both loops, with no assumption on the scores:
    an entry the lexical loop made starts its vector score at 0. *)
Lemma merged_entry_floor po scores docs vres pid :
  match dict_get String.eqb (merge_vector vres (merge_bm25 po scores docs [])) pid with
  | Some data =>
    path_max (lexical_observed po scores docs pid) (bm25_score data)
    /\ path_max (match lexical_observed po scores docs pid with
                 | [] => vector_observed vres pid
                 | _ => 0 :: vector_observed vres pid
                 end) (vector_score data)
  | None => lexical_observed po scores docs pid = [] /\ vector_observed vres pid = []
  end.
Proof.
  rewrite merge_vector_get, merge_bm25_get. simpl dict_get.
  unfold lexical_observed, vector_observed.
  destruct (filter (lexical_hit po pid) docs) as [| d L].
  - simpl fold_left at 2. simpl map at 1 2.
    destruct (filter (vector_hit pid) vres) as [| r Vs]; [simpl; auto |].
    destruct (vector_fold_none r Vs) as (e' & -> & Hv & Hb).
    rewrite Hv, Hb. split; [simpl; reflexivity |]. apply path_max_running.
  - destruct (bm25_fold_none scores d L) as (e1 & -> & Hb1 & Hv1).
    destruct (vector_fold_some (filter (vector_hit pid) vres) e1) as (e2 & -> & Hv2 & Hb2 & _).
    rewrite Hv2, Hb2, Hb1, Hv1. split.
    + apply path_max_running.
    + simpl map at 1. cbv iota. apply path_max_running.
Qed.

Lemma semantic_results_nonneg vu query limit t po bk ecw l :
  0 <= t ->
  semantic_search_products vu query limit t po bk ecw = Returned l ->
  Forall (fun r => 0 <= similarity_score r) l.
Proof.
  intros Ht H. rewrite Forall_forall. intros r Hr.
  destruct (semantic_result_origin _ _ _ _ _ _ _ _ _ H Hr)
    as (u & results & doc & score & _ & _ & _ & Hscore & -> & _).
  apply round4_nonneg, py_min_glb; [| lra].
  apply semantic_final_score_nonneg. lra.
Qed.

Lemma Forall_slice_to {A} (P : A -> Prop) (l : list A) (n : Z) :
  Forall P l -> Forall P (Py.slice_to l n).
Proof.
  rewrite !Forall_forall. intros H x Hx. apply H. eapply slice_to_incl; exact Hx.
Qed.

(** C4, as amended: on the fusion path the union is merged from the first
    [2 * limit] hits of the lexical retriever and the first [2 * limit]
    results of the single-path ranker (called with [3 * limit]); hits beyond
    these are not counted.  Every item one of these hits files under a product
    id has an entry: it is not skipped.  Its lexical score is the greatest
    rank score among its counted lexical hits, or 0 without one; its vector
    score is the greatest score among its counted single-path results (scores
    already adjusted and capped by that ranker), or 0 without one, and never
    below 0 for an item with a lexical hit, which makes no difference when
    the threshold is not negative.  The fused base is
    [bm25_weight * lexical + vector_weight * vector], and every returned
    result is scored from the entry of its own product id. *)
Theorem fused_base_through_entry_point (langchain_community : option BM25Retriever)
    (u : VectorstoreUpdater) (query : string) (limit : Z)
    (score_threshold : Q) (product_only : bool)
    (bm25_weight vector_weight : Q) (enable_category_weight : bool)
    (l : list Result) :
  hybrid_try langchain_community u query limit score_threshold product_only
    bm25_weight vector_weight enable_category_weight = Returned l ->
  exists BM25 bm25_retriever raw vector_results,
    langchain_community = Some BM25
    /\ from_documents BM25 (gather_all_docs (vectorstore u)) = Returned bm25_retriever
    /\ invoke bm25_retriever query (limit * 3)%Z = Returned raw
    /\ semantic_search_products (Some u) query (limit * 3)%Z score_threshold
         product_only None enable_category_weight = Returned vector_results
    /\ let docs := Py.slice_to raw (limit * 2)%Z in
       let vres := Py.slice_to vector_results (limit * 2)%Z in
       let bm25_scores := bm25_scores_of raw in
       let merged_results := merge_vector vres (merge_bm25 product_only bm25_scores docs []) in
       (forall product_id,
           lexical_observed product_only bm25_scores docs product_id <> []
           \/ vector_observed vres product_id <> [] ->
           exists data, In (product_id, data) merged_results)
       /\ (forall product_id data,
              In (product_id, data) merged_results ->
              path_max (lexical_observed product_only bm25_scores docs product_id)
                       (bm25_score data)
              /\ path_max (match lexical_observed product_only bm25_scores docs product_id with
                           | [] => vector_observed vres product_id
                           | _ => 0 :: vector_observed vres product_id
                           end) (vector_score data)
              /\ (0 <= score_threshold ->
                  path_max (vector_observed vres product_id) (vector_score data))
              /\ fused_score bm25_weight vector_weight data
                 == bm25_weight * bm25_score data + vector_weight * vector_score data)
       /\ (forall r,
              In r l ->
              exists data,
                In (result_product_id r, data) merged_results
                /\ r = hybrid_result query bm25_weight vector_weight
                         (if enable_category_weight
                          then infer_target_categories_from_query query else [])
                         data).
Proof.
  intros Htry.
  apply hybrid_try_inversion in Htry.
  destruct Htry as (BM25 & retr & raw & vres & Hlc & Hfrom & Hinv & Hsem & ->).
  exists BM25, retr, raw, vres.
  repeat (split; [assumption |]).
  cbv zeta.
  set (docs := Py.slice_to raw (limit * 2)%Z).
  set (vs := Py.slice_to vres (limit * 2)%Z).
  set (scores := bm25_scores_of raw).
  split; [| split].
  - intros pid Hseen.
    pose proof (merged_entry_floor product_only scores docs vs pid) as H.
    destruct (dict_get String.eqb _ pid) as [data |] eqn:E.
    + exists data. apply (dict_get_In _ string_eqb_spec), E.
    + destruct H as [Hl Hv]. destruct Hseen; contradiction.
  - intros pid data Hin.
    pose proof (In_dict_get _ string_eqb_spec _ _ _
                  (merged_NoDup product_only scores docs vs) Hin) as Hget.
    pose proof (merged_entry_floor product_only scores docs vs pid) as H.
    rewrite Hget in H. destruct H as [Hl Hv].
    split; [exact Hl |]. split; [exact Hv |]. split; [| unfold fused_score; ring].
    intros Ht.
    assert (Hpos : Forall (fun r => 0 <= similarity_score r) vs)
      by (apply Forall_slice_to; eapply semantic_results_nonneg; eassumption).
    pose proof (merged_entry product_only scores docs vs pid Hpos) as H.
    rewrite Hget in H. apply H.
  - intros r Hr.
    apply slice_to_incl, sort_desc_In, score_merged_In in Hr.
    destruct Hr as (k & data & Hin & -> & _ & _).
    exists data. split; [| reflexivity].
    rewrite hybrid_result_id.
    rewrite (proj1 (merged_keyed _ _ _ _ _ _ Hin)). exact Hin.
Qed.

Lemma fused_base_through_entry_point_witness :
  exists data,
    In ("p4", data)
       (merge_vector []
          (merge_bm25 true (bm25_scores_of [Sample.doc 4 "stand" Sample.stand])
             [Sample.doc 4 "stand" Sample.stand] []))
    /\ Sample.fused Sample.stand (6675 # 10000) (10000 # 10000) (0 # 10000)
       = hybrid_result "speaker" (4 # 10) (6 # 10)
           (infer_target_categories_from_query "speaker") data.
Proof.
  destruct (fused_base_through_entry_point
              (Some (Sample.lexical [Sample.doc 4 "stand" Sample.stand]))
              (Sample.store_with [(Sample.doc 4 "stand" Sample.stand, 1 # 10)] [])
              "speaker" 10 (2 # 10) true (4 # 10) (6 # 10) true
              [Sample.fused Sample.stand (6675 # 10000) (10000 # 10000) (0 # 10000)]
              eq_refl)
    as (BM25 & retr & raw & vres & HB & Hf & Hi & Hs & _ & _ & Hres).
  injection HB as <-. injection Hf as <-. injection Hi as <-. injection Hs as <-.
  exact (Hres _ (or_introl eq_refl)).
Defined.

(** C4, counterexample: with the limit 1 only the first two lexical hits are
    counted.  The desk is the third of three lexical hits (rank score 1/2) and
    the only vector result (0.9) for the query "xyz", which triggers no
    adjustment; the fusion ranker returns it with 0.54, that is
    [0.4 * 0 + 0.6 * 0.9], and not with the [0.4 * 0.5 + 0.6 * 0.9 = 0.74] of
    the two path scores. *)
Lemma fused_base_slice_counterexample :
  Sample.names_of
    (hybrid_search_products
       (Some (Sample.lexical [Sample.doc 1 "speaker" Sample.speaker;
                              Sample.doc 2 "earbuds" Sample.earbuds;
                              Sample.doc 3 "desk" Sample.desk]))
       (Some (Sample.store [(Sample.doc 3 "desk" Sample.desk, 9 # 10)]))
       "xyz" 1 (2 # 10) true (4 # 10) (6 # 10) true)
  = ["oak desk"]
  /\ Sample.scores_of
       (hybrid_search_products
          (Some (Sample.lexical [Sample.doc 1 "speaker" Sample.speaker;
                                 Sample.doc 2 "earbuds" Sample.earbuds;
                                 Sample.doc 3 "desk" Sample.desk]))
          (Some (Sample.store [(Sample.doc 3 "desk" Sample.desk, 9 # 10)]))
          "xyz" 1 (2 # 10) true (4 # 10) (6 # 10) true)
     = [5400 # 10000]
  /\ bm25_lookup
       (bm25_scores_of [Sample.doc 1 "speaker" Sample.speaker;
                        Sample.doc 2 "earbuds" Sample.earbuds;
                        Sample.doc 3 "desk" Sample.desk])
       (Sample.doc 3 "desk" Sample.desk)
     == 1 # 2
  /\ Sample.scores_of
       (semantic_search_products
          (Some (Sample.store [(Sample.doc 3 "desk" Sample.desk, 9 # 10)]))
          "xyz" 3 (2 # 10) true None true)
     = [9000 # 10000]
  /\ ~ 5400 # 10000 == Py.round4 ((4 # 10) * (1 # 2) + (6 # 10) * (9 # 10)).
Proof.
  split; [vm_compute; reflexivity |]. split; [vm_compute; reflexivity |].
  split; [vm_compute; reflexivity |]. split; [vm_compute; reflexivity |].
  vm_compute. discriminate.
Qed.
